(** * appveyor-artifacts: a shallow embedding of [appveyor_artifacts.py]

    The development follows the source file top-down: the values the
    program manipulates (parsed JSON, the configuration dictionary), the
    effects it performs (HTTP GET requests, sleeping, reading the clock),
    then [query_api], [validate], [get_build_version], [get_job_ids],
    [get_artifacts_urls] and [main].

    A Python call either returns, raises [HandledError] (always right after
    one [log.error] line, which is the only thing that tells two handled
    failures apart), or raises some other exception that nothing in the
    program catches. *)

From Stdlib Require Import List String Ascii ZArith QArith Bool Arith Lia.
Import ListNotations.

Set Warnings "-register-all".

#[local] Open Scope string_scope.
#[local] Open Scope Z_scope.
#[local] Open Scope list_scope.

(** ** Values *)

Module Py.

(** A value produced by [response.json()].  Objects keep their fields in
    order, as Python dictionaries do; a key occurs once.  A JSON real is kept
    as a rational: the program only ever tests such a number for zero. *)
Inductive json : Type :=
| JNull
| JBool (b : bool)
| JInt (z : Z)
| JReal (q : Q)
| JStr (s : string)
| JArr (items : list json)
| JObj (fields : list (string * json)).

(** Exceptions other than [HandledError]; nothing in the program catches
    them. *)
Inductive pyexc : Type :=
| KeyError
| TypeError
| AttributeError
| ValueError
| IndexError
| RequestException.

(** The interpreter the script runs under.  It matters in one place only: an
    ordering comparison between a float and a str. *)
Inductive pyver : Type := Py2 | Py3.

(** [bool(x)] *)
Definition truthy (j : json) : bool :=
  match j with
  | JNull => false
  | JBool b => b
  | JInt z => negb (z =? 0)
  | JReal q => negb (Qeq_bool q 0)
  | JStr s => negb (s =? "")%string
  | JArr items => match items with [] => false | _ :: _ => true end
  | JObj fields => match fields with [] => false | _ :: _ => true end
  end.

(** [bool(s)] for a str *)
Definition nonempty (s : string) : bool := negb (s =? "")%string.

(** [s == x] for a str [s] and a parsed value [x] *)
Definition str_eq (s : string) (x : json) : bool :=
  match x with
  | JStr s' => (s =? s')%string
  | _ => false
  end.

Fixpoint assoc (k : string) (fields : list (string * json)) : option json :=
  match fields with
  | [] => None
  | (k', v) :: rest => if (k =? k')%string then Some v else assoc k rest
  end.

(** [needle in haystack] for two strs *)
Fixpoint is_substring (needle haystack : string) : bool :=
  String.prefix needle haystack ||
  match haystack with
  | EmptyString => false
  | String _ rest => is_substring needle rest
  end.

Fixpoint chars (s : string) : list json :=
  match s with
  | EmptyString => []
  | String c rest => JStr (String c EmptyString) :: chars rest
  end.

(** Values that can be put in a [set]. *)
Definition hashable (j : json) : bool :=
  match j with
  | JArr _ | JObj _ => false
  | _ => true
  end.

End Py.
Import Py.

(** ** Outcomes and effects *)

(** One constructor per [log.error(...)] that is followed by
    [raise HandledError], carrying the arguments of the log line. *)
Inductive failure : Type :=
| ServerTimedOut                                   (* 'Timed out waiting for reply from server.' *)
| HttpError (status : Z) (message : json)          (* 'HTTP %d: %s' *)
| HttpUnknownError (status : Z) (text : string)    (* 'HTTP %d: Unknown error: %s' *)
| JsonParseFailed (text : string)                  (* 'Failed to parse JSON: %s' *)
| Contradiction                                    (* 'Contradiction: --always-job-dirs and --no-job-dirs used.' *)
| InvalidCommit                                    (* 'No or invalid git commit obtained.' *)
| NotADirectory (dir : string)                     (* "Not a directory or doesn't exist: %s" *)
| InvalidNoJobDirs                                 (* '--no-job-dirs has invalid value. ...' *)
| InvalidOwner                                     (* 'No or invalid repo owner name obtained.' *)
| PullRequestNotDigit                              (* '--pull-request is not a digit.' *)
| InvalidRepo                                      (* 'No or invalid repo name obtained.' *)
| InvalidTag                                       (* 'Invalid git tag obtained.' *)
| TimeoutNotDigit                                  (* '--timeout is not a digit.' *)
| BuildsKeyMissing                                 (* 'Bad JSON reply: "builds" key missing.' *)
| BuildKeyMissing                                  (* 'Bad JSON reply: "build" key missing.' *)
| JobsKeyMissing                                   (* 'Bad JSON reply: "jobs" key missing.' *)
| JobNameNotFound (name : string)                  (* 'Job name "%s" not found.' *)
| QueueTimedOut                                    (* 'Timed out waiting for job to be queued or build not found.' *)
| JobFailed (owner repo : string) (job : json)     (* 'AppVeyor job failed: %s' with the job's console URL *)
| UnknownStatus (unknown : list json)              (* 'Got unknown status from AppVeyor API: %s' *)
| JobsTimedOut (njobs : nat).                      (* 'Timed out waiting for job%s to finish.' *)

(** How a call ends.  [OutOfFuel] belongs to the model only: the polling
    loop of [main] is a [while True], run here for a bounded number of
    iterations. *)
Inductive result (A : Type) : Type :=
| Ret (a : A)
| Handled (f : failure)
| Crash (x : pyexc)
| OutOfFuel.

Arguments Ret {A} a.
Arguments Handled {A} f.
Arguments Crash {A} x.
Arguments OutOfFuel {A}.

Definition rbind {A B} (r : result A) (k : A -> result B) : result B :=
  match r with
  | Ret a => k a
  | Handled f => Handled f
  | Crash x => Crash x
  | OutOfFuel => OutOfFuel
  end.

(** The three endpoints the program formats.  Owner, repository, build
    version and job id are kept apart instead of being spliced into one
    string:
    - ['/projects/{0}/{1}/history?recordsNumber=10']
    - ['/projects/{0}/{1}/build/{2}']
    - ['/buildjobs/{0}/artifacts'] *)
Inductive endpoint : Type :=
| History (owner repo : string)
| BuildAt (owner repo : string) (version : json)
| Artifacts (job : json).

(** What the program does to the outside world, newest event first. *)
Inductive event : Type :=
| Get (ep : endpoint)        (* requests.get(API_PREFIX + endpoint, ...) *)
| Sleep (secs : Z).          (* time.sleep(secs) *)

Definition trace : Type := list event.

(** What [requests.get] gives back.  [body] is the value of
    [response.json()], [None] when that call raises [ValueError]. *)
Inductive reply : Type :=
| TimedOut                   (* ConnectTimeout, ReadTimeout or Timeout *)
| Unreachable                (* any other exception of requests *)
| Response (ok : bool) (status_code : Z) (text : string) (body : option json).

(** The outside world: the service, the wall clock, the file system and the
    interpreter.  Service and clock may depend on everything done so far.
    A str is kept as the bytes of its UTF-8 encoding.  [unicode_isdigit] is
    what [str.isdigit()] answers under Python 3 for a str that has characters
    outside ASCII: which of those count as digits is read from the Unicode
    tables the interpreter was built with. *)
Record env : Type := mkEnv {
  respond : trace -> endpoint -> reply;
  clock : trace -> Q;
  isdir : string -> bool;
  python : pyver;
  unicode_isdigit : string -> bool
}.

(** Computations: a state-and-error monad over the trace. *)
Definition M (A : Type) : Type := trace -> result A * trace.

Definition ret {A} (a : A) : M A := fun t => (Ret a, t).

Definition raise {A} (f : failure) : M A := fun t => (Handled f, t).

Definition crash {A} (x : pyexc) : M A := fun t => (Crash x, t).

Definition bind {A B} (m : M A) (k : A -> M B) : M B :=
  fun t =>
    match m t with
    | (Ret a, t') => k a t'
    | (Handled f, t') => (Handled f, t')
    | (Crash x, t') => (Crash x, t')
    | (OutOfFuel, t') => (OutOfFuel, t')
    end.

Definition lift {A} (r : result A) : M A := fun t => (r, t).

Declare Scope py_scope.
Delimit Scope py_scope with py.
Notation "x <- m ;; k" := (bind m (fun x => k))
  (at level 61, m at next level, right associativity) : py_scope.
Notation "m ;; k" := (bind m (fun _ => k))
  (at level 61, right associativity) : py_scope.
Notation "x <-- r ;; k" := (rbind r (fun x => k))
  (at level 61, r at next level, right associativity) : py_scope.
#[local] Open Scope py_scope.

(** ** Operations on parsed values *)

(** [key in x] *)
Definition py_contains (key : string) (x : json) : result bool :=
  match x with
  | JObj fields => Ret (match assoc key fields with Some _ => true | None => false end)
  | JArr items => Ret (existsb (str_eq key) items)
  | JStr s => Ret (is_substring key s)
  | _ => Crash TypeError
  end.

(** [x[key]] with a str key *)
Definition py_getitem (x : json) (key : string) : result json :=
  match x with
  | JObj fields =>
      match assoc key fields with
      | Some v => Ret v
      | None => Crash KeyError
      end
  | _ => Crash TypeError
  end.

(** [x.get(key)] *)
Definition py_get (x : json) (key : string) : result json :=
  match x with
  | JObj fields =>
      match assoc key fields with
      | Some v => Ret v
      | None => Ret JNull
      end
  | _ => Crash AttributeError
  end.

(** The elements [for e in x] goes through. *)
Definition py_iter (x : json) : result (list json) :=
  match x with
  | JArr items => Ret items
  | JObj fields => Ret (map (fun kv => JStr (fst kv)) fields)
  | JStr s => Ret (chars s)
  | _ => Crash TypeError
  end.

(** ** [query_api] *)

Section Program.

Variable E : env.

Definition http_get (ep : endpoint) : M reply :=
  fun t => (Ret (respond E t ep), Get ep :: t).

Definition sleep (secs : Z) : M unit :=
  fun t => (Ret tt, Sleep secs :: t).

Definition time_time : M Q :=
  fun t => (Ret (clock E t), t).

Definition query_api (ep : endpoint) : M json :=
  r <- http_get ep ;;
  match r with
  | TimedOut => raise ServerTimedOut
  | Unreachable => crash RequestException
  | Response ok status_code text body =>
      if negb ok then
        (* message = response.json().get('message'), outside any try *)
        match body with
        | None => crash ValueError
        | Some j =>
            message <- lift (py_get j "message") ;;
            if truthy message
            then raise (HttpError status_code message)
            else raise (HttpUnknownError status_code text)
        end
      else
        match body with
        | Some j => ret j
        | None => raise (JsonParseFailed text)
        end
  end.

(** ** Configuration and [validate] *)

(** The dictionary built by [get_arguments]: two flags, the rest strs, an
    option left out being the empty str. *)
Record config : Type := mkConfig {
  always_job_dirs : bool;
  commit : string;
  dir : string;
  job_name : string;
  no_job_dirs : string;
  owner : string;
  pull_request : string;
  repo : string;
  tag : string;
  timeout : string;
  verbose : bool
}.

Definition SLEEP_FOR : Z := 5.

Definition in_range (lo hi c : ascii) : bool :=
  (nat_of_ascii lo <=? nat_of_ascii c)%nat && (nat_of_ascii c <=? nat_of_ascii hi)%nat.

Definition is_digit (c : ascii) : bool := in_range "0" "9" c.

(** [[0-9a-f]] *)
Definition hex_lower (c : ascii) : bool := is_digit c || in_range "a" "f" c.

(** [[0-9a-zA-Z\._-]] *)
Definition general_char (c : ascii) : bool :=
  is_digit c || in_range "a" "z" c || in_range "A" "Z" c
  || (c =? ".")%char || (c =? "_")%char || (c =? "-")%char.

Definition newline : ascii := "010"%char.

(** Where [$] matches without [re.MULTILINE]: at the very end of the str, or
    just before a newline that is its last character. *)
Definition at_dollar (rest : string) : bool :=
  match rest with
  | EmptyString => true
  | String c EmptyString => (c =? newline)%char
  | _ => false
  end.

(** [re.compile('^[cls]{lo,hi}$').match(s)], having consumed [n] characters
    of the class already; [hi = None] for an open upper bound. *)
Fixpoint class_repeat (cls : ascii -> bool) (lo : nat) (hi : option nat)
    (n : nat) (s : string) : bool :=
  ((lo <=? n)%nat && match hi with Some h => (n <=? h)%nat | None => true end
   && at_dollar s)
  || match s with
     | EmptyString => false
     | String c rest => cls c && class_repeat cls lo hi (S n) rest
     end.

(** [REGEX_COMMIT = re.compile(r'^[0-9a-f]{7,40}$')] *)
Definition REGEX_COMMIT (s : string) : bool :=
  class_repeat hex_lower 7 (Some 40%nat) 0 s.

(** [REGEX_GENERAL = re.compile(r'^[0-9a-zA-Z\._-]+$')] *)
Definition REGEX_GENERAL (s : string) : bool :=
  class_repeat general_char 1 None 0 s.

Fixpoint all_chars (p : ascii -> bool) (s : string) : bool :=
  match s with
  | EmptyString => true
  | String c rest => p c && all_chars p rest
  end.

Definition is_ascii (c : ascii) : bool := (nat_of_ascii c <? 128)%nat.

(** [s.isdigit()].  On a byte str of Python 2, and on a str of Python 3
    that stays within ASCII, the digits are 0 to 9 and the str must not be
    empty.  On a str of Python 3 with characters outside ASCII the answer is
    the interpreter's, which knows more digits (superscripts, the digits of
    other scripts). *)
Definition isdigit (s : string) : bool :=
  match python E with
  | Py2 => nonempty s && all_chars is_digit s
  | Py3 =>
      if all_chars is_ascii s then nonempty s && all_chars is_digit s
      else unicode_isdigit E s
  end.

Definition fail_if (b : bool) (f : failure) : M unit :=
  if b then raise f else ret tt.

Definition validate (config : config) : M unit :=
  fail_if (always_job_dirs config && nonempty (no_job_dirs config)) Contradiction ;;
  fail_if (nonempty (commit config) && negb (REGEX_COMMIT (commit config))) InvalidCommit ;;
  fail_if (nonempty (dir config) && negb (isdir E (dir config))) (NotADirectory (dir config)) ;;
  fail_if (negb (existsb (String.eqb (no_job_dirs config)) [""; "rename"; "overwrite"; "skip"]))
          InvalidNoJobDirs ;;
  fail_if (negb (nonempty (owner config)) || negb (REGEX_GENERAL (owner config))) InvalidOwner ;;
  fail_if (nonempty (pull_request config) && negb (isdigit (pull_request config)))
          PullRequestNotDigit ;;
  fail_if (negb (nonempty (repo config)) || negb (REGEX_GENERAL (repo config))) InvalidRepo ;;
  fail_if (nonempty (tag config) && negb (REGEX_GENERAL (tag config))) InvalidTag ;;
  fail_if (nonempty (timeout config) && negb (isdigit (timeout config))) TimeoutNotDigit.

(** ** [get_build_version] *)

(** The [if]/[elif]/[elif]/[else: continue] chain on one build of the
    history: does the loop stop at this build? *)
Definition build_matches (config : config) (build : json) : result bool :=
  by_tag <-- (if nonempty (tag config)
              then x <-- py_get build "tag" ;; Ret (str_eq (tag config) x)
              else Ret false) ;;
  if by_tag then Ret true else
  by_pr <-- (if nonempty (pull_request config)
             then x <-- py_get build "pullRequestId" ;; Ret (str_eq (pull_request config) x)
             else Ret false) ;;
  if by_pr then Ret true else
  c <-- py_getitem build "commitId" ;;
  Ret (str_eq (commit config) c).

(** [for build in json_data['builds']: ...; return build['version']], and
    [return None] after the loop. *)
Fixpoint find_build (config : config) (builds : list json) : result json :=
  match builds with
  | [] => Ret JNull
  | build :: rest =>
      hit <-- build_matches config build ;;
      if hit then py_getitem build "version" else find_build config rest
  end.

Definition get_build_version (config : config) : M json :=
  json_data <- query_api (History (owner config) (repo config)) ;;
  present <- lift (py_contains "builds" json_data) ;;
  if negb present then raise BuildsKeyMissing else
  builds <- lift (py_getitem json_data "builds") ;;
  items <- lift (py_iter builds) ;;
  lift (find_build config items).

(** ** [get_job_ids] *)

(** The loop over [json_data['build']['jobs']] with what follows it;
    [all_jobs] is the list collected so far. *)
Fixpoint collect_jobs (config : config) (jobs : list json) (all_jobs : list (json * json))
  : result (list (json * json)) :=
  match jobs with
  | [] =>
      if nonempty (job_name config)
      then Handled (JobNameNotFound (job_name config))
      else Ret all_jobs
  | job :: rest =>
      found <-- (if nonempty (job_name config)
                 then name <-- py_getitem job "name" ;; Ret (str_eq (job_name config) name)
                 else Ret false) ;;
      jobId <-- py_getitem job "jobId" ;;
      status <-- py_getitem job "status" ;;
      if found then Ret [(jobId, status)]
      else collect_jobs config rest (all_jobs ++ [(jobId, status)])
  end.

Definition get_job_ids (build_version : json) (config : config) : M (list (json * json)) :=
  json_data <- query_api (BuildAt (owner config) (repo config) build_version) ;;
  has_build <- lift (py_contains "build" json_data) ;;
  if negb has_build then raise BuildKeyMissing else
  build <- lift (py_getitem json_data "build") ;;
  has_jobs <- lift (py_contains "jobs" build) ;;
  if negb has_jobs then raise JobsKeyMissing else
  jobs <- lift (py_getitem build "jobs") ;;
  items <- lift (py_iter jobs) ;;
  lift (collect_jobs config items []).

(** ** [get_artifacts_urls] *)

(** The inner loop, over one job's listing. *)
Fixpoint artifact_entries (job : json) (listing : list json) : result (list (json * json)) :=
  match listing with
  | [] => Ret []
  | artifact :: rest =>
      file_name <-- py_getitem artifact "fileName" ;;
      more <-- artifact_entries job rest ;;
      Ret ((job, file_name) :: more)
  end.

(** The outer loop; [artifacts] is the list built so far. *)
Fixpoint artifacts_loop (job_ids : list json) (artifacts : list (json * json))
  : M (list (json * json)) :=
  match job_ids with
  | [] => ret artifacts
  | job :: rest =>
      json_data <- query_api (Artifacts job) ;;
      listing <- lift (py_iter json_data) ;;
      entries <- lift (artifact_entries job listing) ;;
      artifacts_loop rest (artifacts ++ entries)
  end.

Definition get_artifacts_urls (job_ids : list json) : M (list (json * json)) :=
  artifacts_loop job_ids [].

(** ** [main] *)

Definition valid_statuses : list string := ["success"; "failed"; "running"; "queued"].

(** [set(xs)]: a set is kept as the list of its elements, and only
    membership is ever asked of it.  Lists and dicts cannot be hashed. *)
Definition py_set (xs : list json) : result (list json) :=
  if forallb hashable xs then Ret xs else Crash TypeError.

(** [s in statuses] *)
Definition set_mem (s : string) (statuses : list json) : bool :=
  existsb (str_eq s) statuses.

(** [statuses == set(names)] *)
Definition set_eq (statuses : list json) (names : list string) : bool :=
  forallb (fun x => existsb (fun s => str_eq s x) names) statuses
  && forallb (fun s => set_mem s statuses) names.

(** [statuses - valid_statuses], a set minus a list: [set.__sub__] accepts
    sets only, whatever the operands hold. *)
Definition set_minus_list (statuses : list json) (names : list string) : result (list json) :=
  Crash TypeError.

(** [elapsed >= config['timeout']], a float against a str.  Python 3 refuses
    to order them; Python 2 orders any number before any str. *)
Definition float_ge_str (elapsed : Q) (s : string) : result bool :=
  match python E with
  | Py3 => Crash TypeError
  | Py2 => Ret false
  end.

(** [[i[0] for i in job_ids if i[1] == 'failed'][0]] *)
Definition first_failed (job_ids : list (json * json)) : result json :=
  match filter (fun i => str_eq "failed" (snd i)) job_ids with
  | i :: _ => Ret (fst i)
  | [] => Crash IndexError
  end.

(** The [for _ in range(3)] loop that waits for the build to show up in the
    history; [build_version] is the variable the loop assigns. *)
Fixpoint wait_for_queue (attempts : nat) (config : config) (build_version : json) : M json :=
  match attempts with
  | O => ret build_version
  | S attempts' =>
      build_version <- get_build_version config ;;
      if truthy build_version then ret build_version
      else (sleep SLEEP_FOR ;; wait_for_queue attempts' config build_version)
  end.

(** The [while True] loop that waits for the jobs to finish; it leaves with
    [job_ids] on [break].  [fuel] bounds the number of iterations. *)
Fixpoint wait_for_jobs (fuel : nat) (build_version : json) (config : config) (start_time : Q)
  : M (list (json * json)) :=
  match fuel with
  | O => lift OutOfFuel
  | S fuel' =>
      job_ids <- get_job_ids build_version config ;;
      statuses <- lift (py_set (map snd job_ids)) ;;
      if set_mem "failed" statuses then
        job <- lift (first_failed job_ids) ;;
        raise (JobFailed (owner config) (repo config) job)
      else if set_eq statuses (firstn 1 valid_statuses) then
        ret job_ids
      else
        (if set_mem "running" statuses then ret tt
         else if set_mem "queued" statuses then ret tt
         else unknown <- lift (set_minus_list statuses valid_statuses) ;;
              raise (UnknownStatus unknown)) ;;
        (if nonempty (timeout config) then
           now <- time_time ;;
           expired <- lift (float_ge_str (now - start_time)%Q (timeout config)) ;;
           fail_if expired (JobsTimedOut (List.length job_ids))
         else ret tt) ;;
        sleep SLEEP_FOR ;;
        wait_for_jobs fuel' build_version config start_time
  end.

Definition main (fuel : nat) (config : config) : M unit :=
  validate config ;;
  build_version <- wait_for_queue 3 config JNull ;;
  if negb (truthy build_version) then raise QueueTimedOut else
  start_time <- time_time ;;
  job_ids <- wait_for_jobs fuel build_version config start_time ;;
  artifacts <- get_artifacts_urls (map fst job_ids) ;;
  ret tt.

End Program.

(** ** [get_arguments] *)

(** What [docopt] hands back: [None] for an option that takes a value and
    was not given, a bool for a flag.  Parsing the command line itself, and
    looking up the version of the package, are left to the libraries. *)
Record arguments : Type := mkArguments {
  arg_always_job_dirs : bool;           (* '--always-job-dirs' *)
  arg_commit : option string;           (* '--commit' *)
  arg_dir : option string;              (* '--dir' *)
  arg_job_name : option string;         (* '--job-name' *)
  arg_no_job_dirs : option string;      (* '--no-job-dirs' *)
  arg_owner_name : option string;       (* '--owner-name' *)
  arg_pull_request : option string;     (* '--pull-request' *)
  arg_raise : bool;                     (* '--raise' *)
  arg_repo_name : option string;        (* '--repo-name' *)
  arg_tag_name : option string;         (* '--tag-name' *)
  arg_timeout : option string;          (* '--timeout' *)
  arg_verbose : bool                    (* '--verbose' *)
}.

(** The environment variables, a dictionary from names to values. *)
Definition environment : Type := string -> option string.

(** [environ.get(name, default)] *)
Definition environ_get (environ : environment) (name default : string) : string :=
  match environ name with
  | Some value => value
  | None => default
  end.

(** [arg or default], for an option of [docopt] and a str *)
Definition arg_or (arg : option string) (default : string) : string :=
  match arg with
  | Some value => if nonempty value then value else default
  | None => default
  end.

(** [s.split(sep)] for a separator of one character *)
Fixpoint split (sep : ascii) (s : string) : list string :=
  match s with
  | EmptyString => [EmptyString]
  | String c rest =>
      if (c =? sep)%char then EmptyString :: split sep rest
      else match split sep rest with
           | part :: parts => String c part :: parts
           | [] => [String c EmptyString]
           end
  end.

(** [parts[n]] *)
Definition py_index (parts : list string) (n : nat) : result string :=
  match nth_error parts n with
  | Some part => Ret part
  | None => Crash IndexError
  end.

(** [environ.get('TRAVIS') == 'true'] *)
Definition on_travis (environ : environment) : bool :=
  match environ "TRAVIS" with
  | Some value => (value =? "true")%string
  | None => false
  end.

(** The five values read from the variables Travis sets, in the order the
    source assigns them: commit, owner, pull request, repository, tag. *)
Definition travis_identity (environ : environment)
  : result (string * string * string * string * string) :=
  if on_travis environ then
      let commit := environ_get environ "TRAVIS_COMMIT" "" in
      owner <-- py_index (split "/" (environ_get environ "TRAVIS_REPO_SLUG" "/")) 0 ;;
      let pull_request := environ_get environ "TRAVIS_PULL_REQUEST" "" in
      let pull_request := if (pull_request =? "false")%string then "" else pull_request in
      repo <-- py_index (split "/" (environ_get environ "TRAVIS_REPO_SLUG" "/")) 1 ;;
      let tag := environ_get environ "TRAVIS_TAG" "" in
      Ret (commit, owner, pull_request, repo, tag)
  else Ret ("", "", "", "", "").

Definition get_arguments (args : arguments) (environ : environment) : result config :=
  identity <-- travis_identity environ ;;
  let '(commit, owner, pull_request, repo, tag) := identity in
  Ret {|
    always_job_dirs := arg_always_job_dirs args;
    commit := arg_or (arg_commit args) commit;
    dir := arg_or (arg_dir args) "";
    job_name := arg_or (arg_job_name args) "";
    no_job_dirs := arg_or (arg_no_job_dirs args) "";
    owner := arg_or (arg_owner_name args) owner;
    pull_request := arg_or (arg_pull_request args) pull_request;
    repo := arg_or (arg_repo_name args) repo;
    tag := arg_or (arg_tag_name args) tag;
    timeout := arg_or (arg_timeout args) "";
    verbose := arg_verbose args
  |}.

(** ** [entry_point] *)

(** [config[key]] on the dictionary [get_arguments] returns: it has the
    eleven keys of the record and no other. *)
Definition config_getitem (config : config) (key : string) : result json :=
  if (key =? "always_job_dirs")%string then Ret (JBool (always_job_dirs config))
  else if (key =? "commit")%string then Ret (JStr (commit config))
  else if (key =? "dir")%string then Ret (JStr (dir config))
  else if (key =? "job_name")%string then Ret (JStr (job_name config))
  else if (key =? "no_job_dirs")%string then Ret (JStr (no_job_dirs config))
  else if (key =? "owner")%string then Ret (JStr (owner config))
  else if (key =? "pull_request")%string then Ret (JStr (pull_request config))
  else if (key =? "repo")%string then Ret (JStr (repo config))
  else if (key =? "tag")%string then Ret (JStr (tag config))
  else if (key =? "timeout")%string then Ret (JStr (timeout config))
  else if (key =? "verbose")%string then Ret (JBool (verbose config))
  else Crash KeyError.

(** How the process ends. *)
Inductive ending : Type :=
| Finished                       (* entry_point returns *)
| SystemExit (status : Z)        (* sys.exit(status), after logging 'Failure.' *)
| Reraised (f : failure)         (* the HandledError of main, raised again *)
| Uncaught (x : pyexc)           (* any other exception *)
| StillPolling.                  (* the model's fuel ran out *)

(** [entry_point], from the parsed command line on.  The handler installed
    for SIGINT and the logging set-up do not change what follows. *)
Definition entry_point (E : env) (fuel : nat) (args : arguments) (environ : environment)
  : trace -> ending * trace :=
  fun t =>
    match get_arguments args environ with
    | Ret config =>
        match main E fuel config t with
        | (Ret _, t') => (Finished, t')
        | (Handled f, t') =>
            match config_getitem config "--raise" with
            | Ret flag => if truthy flag then (Reraised f, t') else (SystemExit 1, t')
            | Handled g => (Reraised g, t')
            | Crash x => (Uncaught x, t')
            | OutOfFuel => (StillPolling, t')
            end
        | (Crash x, t') => (Uncaught x, t')
        | (OutOfFuel, t') => (StillPolling, t')
        end
    | Handled f => (Reraised f, t)
    | Crash x => (Uncaught x, t)
    | OutOfFuel => (StillPolling, t)
    end.

(** ** [setup_logging] and [InfoFilter] *)

Module Logging.

(** The numeric levels of the [logging] module. *)
Definition DEBUG : Z := 10.
Definition INFO : Z := 20.
Definition WARNING : Z := 30.
Definition ERROR : Z := 40.
Definition CRITICAL : Z := 50.

Inductive stream : Type := Stdout | Stderr.

(** What matters of a log record: its level, and whether its line can be
    produced, that is, whether formatting the message with its arguments and
    writing the result succeed.  The debug line of [get_artifacts_urls] has
    three placeholders for one argument: its line cannot be produced. *)
Record record : Type := mkRecord {
  levelno : Z;
  renders : bool
}.

(** [InfoFilter.filter(record)] *)
Definition InfoFilter_filter (r : record) : bool := levelno r <=? INFO.

(** A stream handler: where it writes, its level and its filters. *)
Record handler : Type := mkHandler {
  writes_to : stream;
  handler_level : Z;
  handler_filters : list (record -> bool)
}.

(** The level given to the root logger and the handlers added to it. *)
Definition setup_logging (verbose : bool) : Z * list handler :=
  let level := if verbose then DEBUG else INFO in
  let handler_stdout := mkHandler Stdout DEBUG [InfoFilter_filter] in
  let handler_stderr := mkHandler Stderr WARNING [] in
  (level, [handler_stdout; handler_stderr]).

(** A handler takes a record that reaches its level and that every one of
    its filters keeps. *)
Definition handles (h : handler) (r : record) : bool :=
  (handler_level h <=? levelno r) && forallb (fun keep => keep r) (handler_filters h).

(** What a handler leaves behind for a record it takes: the line on its
    stream, or, when the line cannot be produced, the report that
    [Handler.handleError] prints on standard error. *)
Inductive output : Type :=
| Line (s : stream)
| ErrorReport.

Definition emit (h : handler) (r : record) : output :=
  if renders r then Line (writes_to h) else ErrorReport.

(** What a record leaves behind once logging is set up: the logger drops
    what is below its level and passes the rest to each handler. *)
Definition written (verbose : bool) (r : record) : list output :=
  let (level, handlers) := setup_logging verbose in
  if level <=? levelno r
  then map (fun h => emit h r) (filter (fun h => handles h r) handlers)
  else [].

End Logging.

(** ** Scenarios

    Concrete configurations, payloads and services used to run the program. *)

Module Scenario.

(** A reply with status 200 whose body parses to [j]. *)
Definition ok_reply (j : json) : reply := Response true 200 "{...}" (Some j).

Definition base_config : config := {|
  always_job_dirs := false;
  commit := "";
  dir := "";
  job_name := "";
  no_job_dirs := "";
  owner := "me";
  pull_request := "";
  repo := "project";
  tag := "";
  timeout := "";
  verbose := false
|}.

Definition job (id status : string) : json :=
  JObj [("jobId", JStr id); ("name", JStr ("job " ++ id)); ("status", JStr status)].

Definition build_reply (jobs : list json) : reply :=
  ok_reply (JObj [("build", JObj [("jobs", JArr jobs)])]).

(** A clock that ticks with the program: five seconds a sleep, one second a
    request. *)
Fixpoint seconds (t : trace) : Z :=
  match t with
  | [] => 0
  | Get _ :: t' => 1 + seconds t'
  | Sleep secs :: t' => secs + seconds t'
  end.

(** The scenarios run on configurations written in ASCII, for which the
    interpreter's table of further digits is never consulted. *)
Definition no_other_digits (s : string) : bool := false.

(** A service that answers every request with [r]. *)
Definition constant_service (py : pyver) (r : reply) : env := {|
  respond := fun _ _ => r;
  clock := fun t => inject_Z (seconds t);
  isdir := fun _ => true;
  python := py;
  unicode_isdigit := no_other_digits
|}.

(** The history of the specification's example: build #1 is the push, build #2
    the same commit, tagged. *)
Definition push_build : json :=
  JObj [("commitId", JStr "abc1234"); ("version", JStr "1.0.1")].

Definition tag_build : json :=
  JObj [("commitId", JStr "abc1234"); ("tag", JStr "v1"); ("version", JStr "1.0.2")].

Definition tagged_identity : config := {|
  always_job_dirs := false;
  commit := "abc1234";
  dir := "";
  job_name := "";
  no_job_dirs := "";
  owner := "me";
  pull_request := "";
  repo := "project";
  tag := "v1";
  timeout := "";
  verbose := false
|}.

Definition other_build : json :=
  JObj [("commitId", JStr "fffffff"); ("tag", JStr "v0"); ("version", JStr "1.0.3")].

(** One job still running, a one second budget. *)
Definition running_service (py : pyver) : env :=
  constant_service py (build_reply [job "a" "running"]).

Definition one_second : config := {|
  always_job_dirs := false;
  commit := "abc1234";
  dir := "";
  job_name := "";
  no_job_dirs := "";
  owner := "me";
  pull_request := "";
  repo := "project";
  tag := "";
  timeout := "1";
  verbose := false
|}.

Definition build_endpoint : endpoint := BuildAt "me" "project" (JStr "1.0.1").

(** The trace after [n] rounds of asking [ep] and sleeping, starting from
    [t]. *)
Fixpoint polled (n : nat) (ep : endpoint) (t : trace) : trace :=
  match n with
  | O => t
  | S n' => polled n' ep (Sleep SLEEP_FOR :: Get ep :: t)
  end.

(** A history in which nothing matches [tagged_identity]. *)
Definition stale_history : reply := ok_reply (JObj [("builds", JArr [other_build])]).

Definition bad_commit : config := {|
  always_job_dirs := false;
  commit := "ABC1234";
  dir := "";
  job_name := "";
  no_job_dirs := "";
  owner := "me";
  pull_request := "";
  repo := "project";
  tag := "";
  timeout := "";
  verbose := false
|}.

(** Job [a] has one artifact, job [b] none. *)
Definition coverage_entry : json :=
  JObj [("fileName", JStr ".coverage"); ("type", JStr "File"); ("size", JInt 4096)].

Definition artifacts_of (job : json) : list json :=
  if str_eq "a" job then [coverage_entry] else [].

Definition artifact_service : env := {|
  respond := fun _ ep =>
    match ep with
    | Artifacts job => ok_reply (JArr (artifacts_of job))
    | _ => TimedOut
    end;
  clock := fun t => inject_Z (seconds t);
  isdir := fun _ => true;
  python := Py3;
  unicode_isdigit := no_other_digits
|}.

(** A build with two jobs of a matrix. *)
Definition matrix_reply : reply :=
  build_reply [job "a" "running"; job "b" "success"].

Definition only_job_b : config := {|
  always_job_dirs := false;
  commit := "abc1234";
  dir := "";
  job_name := "job b";
  no_job_dirs := "";
  owner := "me";
  pull_request := "";
  repo := "project";
  tag := "";
  timeout := "";
  verbose := false
|}.

Definition only_job_c : config := {|
  always_job_dirs := false;
  commit := "abc1234";
  dir := "";
  job_name := "job c";
  no_job_dirs := "";
  owner := "me";
  pull_request := "";
  repo := "project";
  tag := "";
  timeout := "";
  verbose := false
|}.

(** Job [a] has its artifact; asking for those of job [b] times out. *)
Definition flaky_artifact_service : env := {|
  respond := fun _ ep =>
    match ep with
    | Artifacts job => if str_eq "a" job then ok_reply (JArr [coverage_entry]) else TimedOut
    | _ => TimedOut
    end;
  clock := fun t => inject_Z (seconds t);
  isdir := fun _ => true;
  python := Py3;
  unicode_isdigit := no_other_digits
|}.

(** An artifact entry without its file name. *)
Definition nameless_entry : json := JObj [("type", JStr "File"); ("size", JInt 0)].

(** The job is running at the first two polls and done at the third. *)
Definition build_polls (t : trace) : nat :=
  List.length (filter (fun e => match e with Get (BuildAt _ _ _) => true | _ => false end) t).

Definition finishing_service : env := {|
  respond := fun t _ =>
    if (build_polls t <? 2)%nat then build_reply [job "a" "running"]
    else build_reply [job "a" "success"];
  clock := fun t => inject_Z (seconds t);
  isdir := fun _ => true;
  python := Py3;
  unicode_isdigit := no_other_digits
|}.

(** A service on which everything goes well: the push build is in the
    history, its two jobs are done, job [a] has one artifact. *)
Definition happy_service : env := {|
  respond := fun _ ep =>
    match ep with
    | History _ _ => ok_reply (JObj [("builds", JArr [other_build; push_build])])
    | BuildAt _ _ _ => build_reply [job "a" "success"; job "b" "success"]
    | Artifacts job => ok_reply (JArr (artifacts_of job))
    end;
  clock := fun t => inject_Z (seconds t);
  isdir := fun _ => true;
  python := Py3;
  unicode_isdigit := no_other_digits
|}.

(** A command line with nothing on it, and one that names the project. *)
Definition no_arguments : arguments := {|
  arg_always_job_dirs := false;
  arg_commit := None;
  arg_dir := None;
  arg_job_name := None;
  arg_no_job_dirs := None;
  arg_owner_name := None;
  arg_pull_request := None;
  arg_raise := false;
  arg_repo_name := None;
  arg_tag_name := None;
  arg_timeout := None;
  arg_verbose := false
|}.

Definition project_arguments : arguments := {|
  arg_always_job_dirs := false;
  arg_commit := Some "abc1234";
  arg_dir := None;
  arg_job_name := None;
  arg_no_job_dirs := None;
  arg_owner_name := Some "me";
  arg_pull_request := None;
  arg_raise := true;
  arg_repo_name := Some "project";
  arg_tag_name := Some "v1";
  arg_timeout := None;
  arg_verbose := false
|}.

(** The variables of a Travis push build of [someone/something]. *)
Definition travis_push : environment := fun name =>
  if (name =? "TRAVIS")%string then Some "true"
  else if (name =? "TRAVIS_COMMIT")%string then Some "fffffff"
  else if (name =? "TRAVIS_REPO_SLUG")%string then Some "someone/something"
  else if (name =? "TRAVIS_PULL_REQUEST")%string then Some "false"
  else None.

(** The same with a slug that has no slash. *)
Definition travis_bad_slug : environment := fun name =>
  if (name =? "TRAVIS")%string then Some "true"
  else if (name =? "TRAVIS_REPO_SLUG")%string then Some "something"
  else None.

(** Not on Travis, though some of its variables are set. *)
Definition elsewhere : environment := fun name =>
  if (name =? "TRAVIS_COMMIT")%string then Some "fffffff"
  else if (name =? "TRAVIS_REPO_SLUG")%string then Some "someone/something"
  else None.


(** A gateway's error page: status 502, a body that is not JSON. *)
Definition bad_gateway : reply := Response false 502 "<html>Bad Gateway</html>" None.

End Scenario.

(** ** Vocabulary of the statements *)

(** Tag precedence across builds: a build scanned later whose tag is the
    identity's tag is the one selected, although a build scanned earlier
    carries the identity's commit. *)
Definition tag_match_preferred (config : config) (builds : list json) : Prop :=
  forall pre b1 mid b2 post v2,
    builds = pre ++ b1 :: mid ++ b2 :: post ->
    nonempty (tag config) = true ->
    py_getitem b1 "commitId" = Ret (JStr (commit config)) ->
    py_get b2 "tag" = Ret (JStr (tag config)) ->
    py_getitem b2 "version" = Ret v2 ->
    find_build config builds = Ret v2.

(** The (job id, status) pairs [get_job_ids] returns when the service sends
    identifiers and statuses as JSON strings. *)
Definition job_listing (jobs : list (string * string)) : list (json * json) :=
  map (fun j => (JStr (fst j), JStr (snd j))) jobs.

(** Success of the poll on a listing of successful jobs, the empty listing
    included. *)
Definition all_success_returns (E : env) (build_version : json) (config : config)
    (start_time : Q) (t : trace) (jobs : list (string * string)) : Prop :=
  forall fuel t',
    get_job_ids E build_version config t = (Ret (job_listing jobs), t') ->
    Forall (fun j => snd j = "success") jobs ->
    wait_for_jobs E (S fuel) build_version config start_time t
    = (Ret (job_listing jobs), t').

(** The two handled failures that only the checks of the polling loop could
    raise. *)
Definition poll_check_failure (f : failure) : bool :=
  match f with
  | UnknownStatus _ | JobsTimedOut _ => true
  | _ => false
  end.

(** The failures [validate] raises. *)
Definition validation_failure (f : failure) : bool :=
  match f with
  | Contradiction | InvalidCommit | NotADirectory _ | InvalidNoJobDirs | InvalidOwner
  | PullRequestNotDigit | InvalidRepo | InvalidTag | TimeoutNotDigit => true
  | _ => false
  end.




(** Number of history queries among some events. *)
Fixpoint history_queries (evs : list event) : nat :=
  match evs with
  | [] => 0%nat
  | Get (History _ _) :: rest => S (history_queries rest)
  | _ :: rest => history_queries rest
  end.

(** [m] only adds events to the trace, at most [n] history queries among
    them. *)
Definition issues_at_most (n : nat) {A} (m : M A) : Prop :=
  forall t, exists evs, snd (m t) = evs ++ t /\ (history_queries evs <= n)%nat.

(** The file name of an artifact entry. *)
Definition file_name (artifact : json) : json :=
  match py_getitem artifact "fileName" with
  | Ret name => name
  | _ => JNull
  end.

(** [x[key]] where the key is known to be there. *)
Definition item (x : json) (key : string) : json :=
  match py_getitem x key with
  | Ret v => v
  | _ => JNull
  end.

(** [m] only adds events to the trace, all of them of kind [P]. *)
Definition emits (P : event -> Prop) {A} (m : M A) : Prop :=
  forall t, exists evs, snd (m t) = evs ++ t /\ Forall P evs.

(** The three kinds of step of a run, in the order [main] takes them. *)
Definition locating (config : config) (e : event) : Prop :=
  e = Get (History (owner config) (repo config)) \/ e = Sleep SLEEP_FOR.

Definition polling (config : config) (e : event) : Prop :=
  (exists version, e = Get (BuildAt (owner config) (repo config) version))
  \/ e = Sleep SLEEP_FOR.

Definition resolving (e : event) : Prop := exists job, e = Get (Artifacts job).

(** A job entry with the two keys the loop reads from every job. *)
Definition has_id_and_status (job : json) : Prop :=
  (exists id, py_getitem job "jobId" = Ret id)
  /\ (exists status, py_getitem job "status" = Ret status).

(** A job entry with a name that is not the one asked for. *)
Definition named_otherwise (config : config) (job : json) : Prop :=
  exists name, py_getitem job "name" = Ret name /\ str_eq (job_name config) name = false.

(** No occurrence of [sep] in [s]. *)
Definition without (sep : ascii) (s : string) : bool :=
  all_chars (fun c => negb (c =? sep)%char) s.

(** * Properties *)

#[local] Arguments String.eqb : simpl never.

Ltac run :=
  unfold get_build_version, get_job_ids, query_api, http_get, sleep, time_time,
         fail_if, bind, ret, raise, crash, lift; simpl.

(** ** The monad *)

Lemma bind_ret_l {A B} (a : A) (k : A -> M B) (t : trace) :
  bind (ret a) k t = k a t.
Proof. reflexivity. Qed.

Lemma bind_eq {A B} (m : M A) (k : A -> M B) (t t' : trace) (a : A) :
  m t = (Ret a, t') -> bind m k t = k a t'.
Proof. intros H. unfold bind. rewrite H. reflexivity. Qed.

(** ** [query_api] *)

(** Every call performs exactly one request. *)
Lemma query_api_trace E ep t : snd (query_api E ep t) = Get ep :: t.
Proof.
  run. destruct (respond E t ep) as [| | ok sc text body]; simpl; try reflexivity.
  destruct ok; simpl.
  - destruct body; reflexivity.
  - destruct body as [j|]; simpl; [|reflexivity].
    destruct (py_get j "message") as [m| | |]; simpl; try reflexivity.
    destruct (truthy m); reflexivity.
Qed.

(** A failed status whose body is an object with a message reports that
    message. *)
Lemma query_api_http_message E ep t sc text fields message :
  respond E t ep = Response false sc text (Some (JObj fields)) ->
  assoc "message" fields = Some message ->
  truthy message = true ->
  query_api E ep t = (Handled (HttpError sc message), Get ep :: t).
Proof.
  intros Hr Hm Ht. run. rewrite Hr. simpl. rewrite Hm. simpl. rewrite Ht. reflexivity.
Qed.

(** A successful status whose body does not parse is a handled failure. *)
Lemma query_api_parse_failure E ep t sc text :
  respond E t ep = Response true sc text None ->
  query_api E ep t = (Handled (JsonParseFailed text), Get ep :: t).
Proof. intros Hr. run. rewrite Hr. reflexivity. Qed.

Lemma query_api_ok E ep t sc text j :
  respond E t ep = Response true sc text (Some j) ->
  query_api E ep t = (Ret j, Get ep :: t).
Proof. intros Hr. run. rewrite Hr. reflexivity. Qed.

(** C4 (the code departs from the claim).  A reply with a failed status whose
    body does not decode as JSON makes [query_api] raise [ValueError]:
    [response.json()] is called outside the [try], so the caller gets neither
    the HTTP failure nor the parse failure but an exception nothing handles. *)
Theorem query_api_undecodable_error_body E ep t sc text :
  respond E t ep = Response false sc text None ->
  query_api E ep t = (Crash ValueError, Get ep :: t).
Proof. intros Hr. run. rewrite Hr. reflexivity. Qed.

Lemma query_api_undecodable_error_body_witness :
  query_api (Scenario.constant_service Py3 Scenario.bad_gateway)
            (History "me" "project") []
  = (Crash ValueError, [Get (History "me" "project")]).
Proof.
  apply (query_api_undecodable_error_body
           (Scenario.constant_service Py3 Scenario.bad_gateway)
           (History "me" "project") [] 502 "<html>Bad Gateway</html>").
  reflexivity.
Defined.

(** ** [get_build_version] *)

(** A build that carries the identity's commit stops the scan, whether or
    not the identity has a tag or a pull request number. *)
Lemma commit_match_suffices config fields :
  assoc "commitId" fields = Some (JStr (commit config)) ->
  build_matches config (JObj fields) = Ret true.
Proof.
  intros Hc. unfold build_matches. simpl. rewrite Hc. simpl. rewrite String.eqb_refl.
  repeat match goal with
         | |- context [match assoc ?k fields with _ => _ end] =>
             destruct (assoc k fields); simpl
         | |- context [if ?c then _ else _] => destruct c; simpl
         end; reflexivity.
Qed.

(** With a readable history, [get_build_version] is the scan of its
    builds. *)
Lemma get_build_version_scan E config t status_code text fields builds :
  respond E t (History (owner config) (repo config))
  = Response true status_code text (Some (JObj fields)) ->
  assoc "builds" fields = Some (JArr builds) ->
  get_build_version E config t
  = (find_build config builds, Get (History (owner config) (repo config)) :: t).
Proof.
  intros Hr Hb. unfold get_build_version.
  rewrite (bind_eq _ _ _ _ _ (query_api_ok E _ t _ _ _ Hr)).
  unfold bind, lift, raise. simpl. rewrite Hb. reflexivity.
Qed.

(** C1, as stated, fails on the specification's own example: with identity
    tag [v1] and commit [abc1234], the push build scanned first is returned,
    not the tag build scanned second. *)
Lemma tag_match_not_preferred :
  ~ tag_match_preferred Scenario.tagged_identity
      [Scenario.push_build; Scenario.tag_build].
Proof.
  intros H.
  specialize (H [] Scenario.push_build [] Scenario.tag_build [] (JStr "1.0.2")
                eq_refl eq_refl eq_refl eq_refl eq_refl).
  vm_compute in H. discriminate H.
Qed.

(** C1 (amended).  The scan stops at the first build that matches by any of
    the three tests, tag, pull request or commit, tried in that order on each
    build; which of the tests matched plays no part across builds. *)
Theorem find_build_first_match config pre b post v :
  Forall (fun x => build_matches config x = Ret false) pre ->
  build_matches config b = Ret true ->
  py_getitem b "version" = Ret v ->
  find_build config (pre ++ b :: post) = Ret v.
Proof.
  intros Hpre Hb Hv. induction Hpre as [|x pre Hx _ IH]; simpl.
  - rewrite Hb. simpl. exact Hv.
  - rewrite Hx. simpl. exact IH.
Qed.

Lemma find_build_first_match_witness :
  find_build Scenario.tagged_identity
             ([Scenario.other_build] ++ Scenario.push_build :: [Scenario.tag_build])
  = Ret (JStr "1.0.1").
Proof.
  apply (find_build_first_match Scenario.tagged_identity [Scenario.other_build]
           Scenario.push_build [Scenario.tag_build] (JStr "1.0.1")).
  - repeat constructor.
  - reflexivity.
  - reflexivity.
Defined.

(** The same through the service: asked for the history of the example,
    [get_build_version] answers with the version of the push build. *)
Example push_build_selected :
  get_build_version
    (Scenario.constant_service Py3
       (Scenario.ok_reply (JObj [("builds", JArr [Scenario.push_build; Scenario.tag_build])])))
    Scenario.tagged_identity []
  = (Ret (JStr "1.0.1"), [Get (History "me" "project")]).
Proof. reflexivity. Qed.

(** ** The polling loop of [main] *)

Section Polling.

Variable E : env.
Variables (build_version : json) (config : config) (start_time : Q).

Lemma listing_hashable jobs : forallb hashable (map snd (job_listing jobs)) = true.
Proof. induction jobs as [|j jobs IH]; simpl; auto. Qed.

Lemma set_mem_listing s jobs :
  set_mem s (map snd (job_listing jobs)) = true <-> exists id, In (id, s) jobs.
Proof.
  unfold set_mem. induction jobs as [|[id st] jobs IH]; simpl.
  - split; [discriminate | intros [? []]].
  - rewrite orb_true_iff, IH, String.eqb_eq. split.
    + intros [->|[id' H]]; eauto.
    + intros [id' [H|H]]; [inversion H; subst; auto | eauto].
Qed.

Lemma set_mem_listing_false s jobs :
  (forall id, ~ In (id, s) jobs) -> set_mem s (map snd (job_listing jobs)) = false.
Proof.
  intros H. destruct (set_mem s (map snd (job_listing jobs))) eqn:Hm; [|reflexivity].
  apply set_mem_listing in Hm. destruct Hm as [id Hin]. destruct (H id Hin).
Qed.

Lemma set_eq_success jobs :
  set_eq (map snd (job_listing jobs)) (firstn 1 valid_statuses) = true
  <-> jobs <> [] /\ Forall (fun j => snd j = "success") jobs.
Proof.
  unfold set_eq, set_mem. simpl. rewrite andb_true_iff, andb_true_r. split.
  - intros [Hall Hex]. split.
    + intros ->. discriminate Hex.
    + clear Hex. induction jobs as [|[id st] jobs IH]; constructor; simpl in *.
      * apply andb_true_iff in Hall as [H _]. rewrite orb_false_r in H.
        apply String.eqb_eq in H. now subst.
      * apply andb_true_iff in Hall as [_ H]. auto.
  - intros [Hne Hall]. split.
    + clear Hne. induction Hall as [|[id st] jobs H _ IH]; simpl in *; auto.
      subst. simpl. exact IH.
    + destruct Hall as [|[id st] jobs H _]; [congruence|]. simpl in *. now subst.
Qed.

Lemma first_failed_listing jobs :
  (exists id, In (id, "failed") jobs) ->
  exists id, In (id, "failed") jobs /\ first_failed (job_listing jobs) = Ret (JStr id).
Proof.
  unfold first_failed. induction jobs as [|[id st] jobs IH]; intros [id' Hin].
  - destruct Hin.
  - simpl. destruct ("failed" =? st)%string eqn:Hst.
    + apply String.eqb_eq in Hst. subst. exists id. simpl. auto.
    + destruct Hin as [Hin|Hin].
      * inversion Hin; subst. discriminate Hst.
      * destruct IH as [id'' [Hin'' Heq]]; [eauto|]. exists id''. simpl. auto.
Qed.

(** One iteration, by the branch it takes. *)
Lemma iteration_failed fuel t t' job_ids job :
  get_job_ids E build_version config t = (Ret job_ids, t') ->
  forallb hashable (map snd job_ids) = true ->
  set_mem "failed" (map snd job_ids) = true ->
  first_failed job_ids = Ret job ->
  wait_for_jobs E (S fuel) build_version config start_time t
  = (Handled (JobFailed (owner config) (repo config) job), t').
Proof.
  intros Hg Hh Hf Hj. simpl. rewrite (bind_eq _ _ _ _ _ Hg).
  unfold py_set. rewrite Hh. unfold bind at 1, lift at 1. rewrite Hf.
  unfold bind, lift, raise. rewrite Hj. reflexivity.
Qed.

Lemma iteration_success fuel t t' job_ids :
  get_job_ids E build_version config t = (Ret job_ids, t') ->
  forallb hashable (map snd job_ids) = true ->
  set_mem "failed" (map snd job_ids) = false ->
  set_eq (map snd job_ids) (firstn 1 valid_statuses) = true ->
  wait_for_jobs E (S fuel) build_version config start_time t = (Ret job_ids, t').
Proof.
  intros Hg Hh Hf Hs. simpl. rewrite (bind_eq _ _ _ _ _ Hg).
  unfold py_set. rewrite Hh. unfold bind at 1, lift at 1. rewrite Hf.
  simpl in Hs. rewrite Hs. reflexivity.
Qed.

Lemma iteration_unknown fuel t t' job_ids :
  get_job_ids E build_version config t = (Ret job_ids, t') ->
  forallb hashable (map snd job_ids) = true ->
  set_mem "failed" (map snd job_ids) = false ->
  set_eq (map snd job_ids) (firstn 1 valid_statuses) = false ->
  set_mem "running" (map snd job_ids) = false ->
  set_mem "queued" (map snd job_ids) = false ->
  wait_for_jobs E (S fuel) build_version config start_time t = (Crash TypeError, t').
Proof.
  intros Hg Hh Hf Hs Hr Hq. simpl. rewrite (bind_eq _ _ _ _ _ Hg).
  unfold py_set. rewrite Hh. unfold bind at 1, lift at 1. rewrite Hf.
  simpl in Hs. rewrite Hs. unfold bind at 1. rewrite Hr, Hq. reflexivity.
Qed.

(** The branch that waits: the budget is looked at, then the loop sleeps and
    goes round again. *)
Lemma iteration_waiting fuel t t' job_ids :
  get_job_ids E build_version config t = (Ret job_ids, t') ->
  forallb hashable (map snd job_ids) = true ->
  set_mem "failed" (map snd job_ids) = false ->
  set_eq (map snd job_ids) (firstn 1 valid_statuses) = false ->
  set_mem "running" (map snd job_ids) || set_mem "queued" (map snd job_ids) = true ->
  wait_for_jobs E (S fuel) build_version config start_time t
  = if nonempty (timeout config) then
      match float_ge_str E (clock E t' - start_time)%Q (timeout config) with
      | Ret true => (Handled (JobsTimedOut (List.length job_ids)), t')
      | Ret false =>
          wait_for_jobs E fuel build_version config start_time (Sleep SLEEP_FOR :: t')
      | Handled f => (Handled f, t')
      | Crash x => (Crash x, t')
      | OutOfFuel => (OutOfFuel, t')
      end
    else wait_for_jobs E fuel build_version config start_time (Sleep SLEEP_FOR :: t').
Proof.
  intros Hg Hh Hf Hs Hw. simpl. rewrite (bind_eq _ _ _ _ _ Hg).
  unfold py_set. rewrite Hh. unfold bind at 1, lift at 1. rewrite Hf.
  simpl in Hs. rewrite Hs. unfold bind at 1.
  assert (Hgo : (if set_mem "running" (map snd job_ids) then ret tt
                 else if set_mem "queued" (map snd job_ids) then ret tt
                 else unknown <- lift (set_minus_list (map snd job_ids) valid_statuses) ;;
                      raise (UnknownStatus unknown)) t' = (Ret tt, t')).
  { destruct (set_mem "running" (map snd job_ids)); [reflexivity|].
    simpl in Hw. rewrite Hw. reflexivity. }
  rewrite Hgo. destruct (nonempty (timeout config)).
  - unfold bind, time_time, lift, fail_if, sleep, raise, ret.
    destruct (float_ge_str E (clock E t' - start_time)%Q (timeout config)) as [[|]| | |];
      reflexivity.
  - reflexivity.
Qed.

End Polling.

(** C5.  A listing with a failed job ends the poll at once, with the job
    failure that names one of the failed jobs (the first in the listing),
    whatever the other jobs are doing: nothing is asked or slept after the
    listing came in. *)
Theorem failed_job_fails_immediately E build_version config start_time fuel t t' jobs :
  get_job_ids E build_version config t = (Ret (job_listing jobs), t') ->
  (exists id, In (id, "failed") jobs) ->
  exists id,
    In (id, "failed") jobs /\
    wait_for_jobs E (S fuel) build_version config start_time t
    = (Handled (JobFailed (owner config) (repo config) (JStr id)), t').
Proof.
  intros Hg Hex. destruct (first_failed_listing jobs Hex) as [id [Hin Hfirst]].
  exists id. split; [exact Hin|].
  apply iteration_failed with (job_ids := job_listing jobs); auto.
  - apply listing_hashable.
  - apply set_mem_listing. exact Hex.
Qed.

Lemma failed_job_fails_immediately_witness :
  exists id,
    In (id, "failed") [("a", "failed"); ("b", "running")] /\
    wait_for_jobs
      (Scenario.constant_service Py3
         (Scenario.build_reply [Scenario.job "a" "failed"; Scenario.job "b" "running"]))
      1 (JStr "1.0.1") Scenario.base_config 0 []
    = (Handled (JobFailed "me" "project" (JStr id)), [Get Scenario.build_endpoint]).
Proof.
  apply (failed_job_fails_immediately
           (Scenario.constant_service Py3
              (Scenario.build_reply [Scenario.job "a" "failed"; Scenario.job "b" "running"]))
           (JStr "1.0.1") Scenario.base_config 0 0 []
           [Get Scenario.build_endpoint] [("a", "failed"); ("b", "running")]).
  - reflexivity.
  - exists "a". simpl. auto.
Defined.

(** The specification's example: the failure names job [a]. *)
Example failed_job_a :
  wait_for_jobs
    (Scenario.constant_service Py3
       (Scenario.build_reply [Scenario.job "a" "failed"; Scenario.job "b" "running"]))
    1 (JStr "1.0.1") Scenario.base_config 0 []
  = (Handled (JobFailed "me" "project" (JStr "a")), [Get Scenario.build_endpoint]).
Proof. reflexivity. Qed.

(** C6, as stated, fails on the empty listing: every job of it is
    successful, yet the set of statuses is not [{'success'}] and the poll
    does not return. *)
Lemma all_success_fails_on_empty_listing :
  ~ all_success_returns
      (Scenario.constant_service Py3 (Scenario.build_reply []))
      (JStr "1.0.1") Scenario.base_config 0 [] [].
Proof.
  intros H.
  specialize (H 0%nat [Get Scenario.build_endpoint] eq_refl (Forall_nil _)).
  vm_compute in H. discriminate H.
Qed.

(** C6 (amended).  A listing that has at least one job, all of them
    successful, ends the poll on that iteration with the whole listing. *)
Theorem all_success_returns_listing E build_version config start_time fuel t t' jobs :
  get_job_ids E build_version config t = (Ret (job_listing jobs), t') ->
  jobs <> [] ->
  Forall (fun j => snd j = "success") jobs ->
  wait_for_jobs E (S fuel) build_version config start_time t
  = (Ret (job_listing jobs), t').
Proof.
  intros Hg Hne Hall. apply iteration_success; auto.
  - apply listing_hashable.
  - apply set_mem_listing_false. intros id Hin.
    rewrite Forall_forall in Hall. specialize (Hall _ Hin). discriminate Hall.
  - apply set_eq_success. auto.
Qed.

Lemma all_success_returns_listing_witness :
  wait_for_jobs
    (Scenario.constant_service Py3
       (Scenario.build_reply [Scenario.job "a" "success"; Scenario.job "b" "success"]))
    1 (JStr "1.0.1") Scenario.base_config 0 []
  = (Ret (job_listing [("a", "success"); ("b", "success")]), [Get Scenario.build_endpoint]).
Proof.
  apply (all_success_returns_listing
           (Scenario.constant_service Py3
              (Scenario.build_reply [Scenario.job "a" "success"; Scenario.job "b" "success"]))
           (JStr "1.0.1") Scenario.base_config 0 0 []
           [Get Scenario.build_endpoint] [("a", "success"); ("b", "success")]).
  - reflexivity.
  - discriminate.
  - repeat constructor.
Defined.

(** C3 (the code departs from the claim).  A listing with no failed job,
    not all successful, none running and none queued makes the poll raise
    [TypeError], not the handled failure for an unknown status: the log line
    subtracts the list [valid_statuses] from the set [statuses]. *)
Theorem unknown_status_raises_type_error E build_version config start_time fuel t t' jobs :
  get_job_ids E build_version config t = (Ret (job_listing jobs), t') ->
  (forall id, ~ In (id, "failed") jobs) ->
  ~ (jobs <> [] /\ Forall (fun j => snd j = "success") jobs) ->
  (forall id, ~ In (id, "running") jobs) ->
  (forall id, ~ In (id, "queued") jobs) ->
  wait_for_jobs E (S fuel) build_version config start_time t = (Crash TypeError, t').
Proof.
  intros Hg Hf Hs Hr Hq. apply iteration_unknown with (job_ids := job_listing jobs); auto.
  - apply listing_hashable.
  - apply set_mem_listing_false. exact Hf.
  - destruct (set_eq _ _) eqn:Heq; [|reflexivity].
    apply set_eq_success in Heq. contradiction.
  - apply set_mem_listing_false. exact Hr.
  - apply set_mem_listing_false. exact Hq.
Qed.

Lemma unknown_status_raises_type_error_witness :
  wait_for_jobs
    (Scenario.constant_service Py3 (Scenario.build_reply [Scenario.job "a" "weird"]))
    1 (JStr "1.0.1") Scenario.base_config 0 []
  = (Crash TypeError, [Get Scenario.build_endpoint]).
Proof.
  apply (unknown_status_raises_type_error
           (Scenario.constant_service Py3 (Scenario.build_reply [Scenario.job "a" "weird"]))
           (JStr "1.0.1") Scenario.base_config 0 0 []
           [Get Scenario.build_endpoint] [("a", "weird")]).
  - reflexivity.
  - intros id [H|[]]. discriminate H.
  - intros [_ H]. inversion H as [|x l Hx]. discriminate Hx.
  - intros id [H|[]]. discriminate H.
  - intros id [H|[]]. discriminate H.
Defined.

(** With one job running forever under Python 2, the loop only stops when
    the model's fuel does. *)
Lemma python2_polls_forever n t :
  wait_for_jobs (Scenario.running_service Py2) n (JStr "1.0.1") Scenario.one_second 0 t
  = (OutOfFuel, Scenario.polled n Scenario.build_endpoint t).
Proof.
  revert t. induction n as [|n IH]; intros t; [reflexivity|].
  rewrite iteration_waiting
    with (job_ids := job_listing [("a", "running")]) (t' := Get Scenario.build_endpoint :: t);
    try reflexivity.
  change (nonempty (timeout Scenario.one_second)) with true. cbv iota.
  change (float_ge_str (Scenario.running_service Py2)
            (clock (Scenario.running_service Py2) (Get Scenario.build_endpoint :: t) - 0)%Q
            (timeout Scenario.one_second)) with (@Ret bool false).
  cbv iota. rewrite IH. reflexivity.
Qed.

(** C2 (the code departs from the claim).  One job running, a budget of one
    second, a poll every five seconds.  The budget reaches the comparison as
    the str ['1'] that [validate] checked with [isdigit]:
    - under Python 3 the first comparison raises [TypeError], so the run
      does stop before a second poll, but not with the handled timeout;
    - under Python 2 the comparison is false whatever the clock shows: after
      the first poll one second has gone by, the budget is met, and the loop
      sleeps and polls again, for as many rounds as it is given. *)
Theorem timeout_budget_not_enforced :
  (forall fuel,
      wait_for_jobs (Scenario.running_service Py3) (S fuel) (JStr "1.0.1")
                    Scenario.one_second 0 []
      = (Crash TypeError, [Get Scenario.build_endpoint]))
  /\ (1 <= clock (Scenario.running_service Py2) [Get Scenario.build_endpoint] - 0)%Q
  /\ (forall n,
      wait_for_jobs (Scenario.running_service Py2) n (JStr "1.0.1")
                    Scenario.one_second 0 []
      = (OutOfFuel, Scenario.polled n Scenario.build_endpoint [])).
Proof.
  split; [|split].
  - intros fuel. reflexivity.
  - vm_compute. discriminate.
  - intros n. apply python2_polls_forever.
Qed.

(** *** Failures the loop can end with *)

Lemma py_contains_pure key x f : py_contains key x <> Handled f.
Proof. destruct x; discriminate. Qed.

Lemma py_getitem_pure x key f : py_getitem x key <> Handled f.
Proof. destruct x; simpl; try discriminate. destruct (assoc key fields); discriminate. Qed.

Lemma py_iter_pure x f : py_iter x <> Handled f.
Proof. destruct x; discriminate. Qed.

Lemma py_get_pure x key f : py_get x key <> Handled f.
Proof. destruct x; simpl; try discriminate. destruct (assoc key fields); discriminate. Qed.

Lemma query_api_failure E ep t f :
  fst (query_api E ep t) = Handled f -> poll_check_failure f = false.
Proof.
  run. destruct (respond E t ep) as [| | ok sc text body]; simpl.
  - intros H. inversion H. reflexivity.
  - discriminate.
  - destruct ok; simpl.
    + destruct body; simpl; intros H; inversion H. reflexivity.
    + destruct body as [j|]; simpl; [|discriminate].
      destruct (py_get j "message") as [m|g| |] eqn:Hm; simpl; try discriminate.
      * destruct (truthy m); simpl; intros H; inversion H; reflexivity.
      * destruct (py_get_pure _ _ _ Hm).
Qed.

Lemma collect_jobs_failure config jobs all_jobs f :
  collect_jobs config jobs all_jobs = Handled f -> poll_check_failure f = false.
Proof.
  revert all_jobs. induction jobs as [|job rest IH]; intros all_jobs; simpl.
  - destruct (nonempty (job_name config)); intros H; inversion H. reflexivity.
  - destruct (nonempty (job_name config)); simpl.
    + destruct (py_getitem job "name") as [name|g| |] eqn:Hn; simpl; try discriminate;
        [|destruct (py_getitem_pure _ _ _ Hn)].
      destruct (py_getitem job "jobId") as [id|g| |] eqn:Hi; simpl; try discriminate;
        [|destruct (py_getitem_pure _ _ _ Hi)].
      destruct (py_getitem job "status") as [st|g| |] eqn:Hs; simpl; try discriminate;
        [|destruct (py_getitem_pure _ _ _ Hs)].
      destruct (str_eq (job_name config) name); [discriminate|apply IH].
    + destruct (py_getitem job "jobId") as [id|g| |] eqn:Hi; simpl; try discriminate;
        [|destruct (py_getitem_pure _ _ _ Hi)].
      destruct (py_getitem job "status") as [st|g| |] eqn:Hs; simpl; try discriminate;
        [|destruct (py_getitem_pure _ _ _ Hs)].
      apply IH.
Qed.

Lemma bind_failure {A B} (m : M A) (k : A -> M B) (P : failure -> Prop) t :
  (forall f, fst (m t) = Handled f -> P f) ->
  (forall a t' f, m t = (Ret a, t') -> fst (k a t') = Handled f -> P f) ->
  forall f, fst (bind m k t) = Handled f -> P f.
Proof.
  intros Hm Hk f. unfold bind. destruct (m t) as [[a|g| |] t'] eqn:Heq; simpl.
  - intros H. eapply Hk; eauto.
  - intros H. apply Hm. simpl. inversion H. reflexivity.
  - discriminate.
  - discriminate.
Qed.

Ltac pure_step H :=
  unfold lift at 1; simpl; intros ? H; exfalso;
  first [ eapply py_contains_pure; exact H
        | eapply py_getitem_pure; exact H
        | eapply py_iter_pure; exact H
        | eapply py_get_pure; exact H ].

Ltac stops :=
  unfold bind, time_time, fail_if, ret, raise, crash, lift; simpl;
  let H := fresh in intros H; discriminate H.

Lemma get_job_ids_failure E build_version config t f :
  fst (get_job_ids E build_version config t) = Handled f -> poll_check_failure f = false.
Proof.
  unfold get_job_ids. revert f.
  apply bind_failure; [intros f; apply query_api_failure|].
  intros json_data t1 f _. revert f.
  apply bind_failure; [let H := fresh in pure_step H|].
  intros has_build t2 f _. destruct has_build; simpl;
    [|unfold raise; simpl; intros H; inversion H; reflexivity].
  revert f. apply bind_failure; [let H := fresh in pure_step H|].
  intros build t3 f _. revert f.
  apply bind_failure; [let H := fresh in pure_step H|].
  intros has_jobs t4 f _. destruct has_jobs; simpl;
    [|unfold raise; simpl; intros H; inversion H; reflexivity].
  revert f. apply bind_failure; [let H := fresh in pure_step H|].
  intros jobs t5 f _. revert f.
  apply bind_failure; [let H := fresh in pure_step H|].
  intros items t6 f _. unfold lift. simpl. apply collect_jobs_failure.
Qed.

(** Whatever the service, the clock, the interpreter and the configuration,
    the loop never ends with the handled failure for an unknown status nor
    with the handled failure for an exhausted budget. *)
Lemma wait_for_jobs_failure E fuel build_version config start_time t f :
  fst (wait_for_jobs E fuel build_version config start_time t) = Handled f ->
  poll_check_failure f = false.
Proof.
  revert t f. induction fuel as [|fuel IH]; intros t f; [discriminate|].
  simpl. revert f.
  apply bind_failure; [intros f; apply get_job_ids_failure|].
  intros job_ids t1 f _. revert f.
  apply bind_failure.
  { unfold lift, py_set. simpl. intros f.
    destruct (forallb hashable (map snd job_ids)); discriminate. }
  intros statuses t2 f _.
  destruct (set_mem "failed" statuses).
  { revert f. apply bind_failure.
    - unfold lift, first_failed. simpl. intros f.
      destruct (filter _ job_ids); discriminate.
    - intros job t3 f _. unfold raise. simpl. intros H. inversion H. reflexivity. }
  destruct (set_eq statuses _); [stops|].
  revert f. apply bind_failure.
  { intros f. destruct (set_mem "running" statuses); [stops|].
    destruct (set_mem "queued" statuses); stops. }
  intros _ t3 f _. revert f. apply bind_failure.
  { intros f. destruct (nonempty (timeout config)); [|stops].
    unfold float_ge_str. destruct (python E); stops. }
  intros _ t4 f _. unfold bind, sleep. apply IH.
Qed.

(** ** [validate] *)

Example commit_pattern :
  REGEX_COMMIT "abc1234" = true /\ REGEX_COMMIT "abc123" = false
  /\ REGEX_COMMIT "ABC1234" = false
  /\ REGEX_COMMIT "0123456789abcdef0123456789abcdef012345678" = false
  /\ REGEX_COMMIT (String.append "abc1234" (String newline EmptyString)) = true.
Proof. repeat split; reflexivity. Qed.

Example general_pattern E :
  REGEX_GENERAL "v1.0-rc_1" = true /\ REGEX_GENERAL "" = false
  /\ REGEX_GENERAL "a b" = false /\ isdigit E "42" = true /\ isdigit E "4x" = false.
Proof. unfold isdigit. destruct (python E); repeat split; reflexivity. Qed.

Lemma nonempty_true s : nonempty s = true <-> s <> "".
Proof.
  unfold nonempty. rewrite negb_true_iff. split.
  - intros H ->. discriminate H.
  - intros H. apply String.eqb_neq. exact H.
Qed.

Lemma nonempty_false s : nonempty s = false <-> s = "".
Proof. unfold nonempty. rewrite negb_false_iff. apply String.eqb_eq. Qed.

Lemma REGEX_GENERAL_nonempty s : REGEX_GENERAL s = true -> nonempty s = true.
Proof. destruct s; [discriminate|reflexivity]. Qed.

(** [validate] passes exactly when none of its nine tests fires; it touches
    nothing outside the file system. *)
Lemma validate_ok_iff E config t :
  validate E config t = (Ret tt, t) <->
  always_job_dirs config && nonempty (no_job_dirs config) = false
  /\ nonempty (commit config) && negb (REGEX_COMMIT (commit config)) = false
  /\ nonempty (dir config) && negb (isdir E (dir config)) = false
  /\ negb (existsb (String.eqb (no_job_dirs config)) [""; "rename"; "overwrite"; "skip"]) = false
  /\ negb (nonempty (owner config)) || negb (REGEX_GENERAL (owner config)) = false
  /\ nonempty (pull_request config) && negb (isdigit E (pull_request config)) = false
  /\ negb (nonempty (repo config)) || negb (REGEX_GENERAL (repo config)) = false
  /\ nonempty (tag config) && negb (REGEX_GENERAL (tag config)) = false
  /\ nonempty (timeout config) && negb (isdigit E (timeout config)) = false.
Proof.
  unfold validate, fail_if, bind, ret, raise.
  repeat match goal with
         | |- context [if ?c then _ else _] =>
             destruct c; [split; [discriminate|intuition discriminate]|]
         end.
  intuition reflexivity.
Qed.

Lemma validate_outcome E config t :
  validate E config t = (Ret tt, t)
  \/ exists f, validation_failure f = true /\ validate E config t = (Handled f, t).
Proof.
  unfold validate, fail_if, bind, ret, raise.
  repeat match goal with
         | |- context [if ?c then _ else _] =>
             destruct c; [right; eexists; split; [|reflexivity]; reflexivity|]
         end.
  left. reflexivity.
Qed.

(** On strs within ASCII, [isdigit] does not depend on the interpreter. *)
Lemma isdigit_ascii E s :
  all_chars is_ascii s = true -> isdigit E s = nonempty s && all_chars is_digit s.
Proof. intros H. unfold isdigit. rewrite H. destruct (python E); reflexivity. Qed.





Example malformed_commit_rejected :
  main (Scenario.constant_service Py3 Scenario.stale_history) 1 Scenario.bad_commit []
  = (Handled InvalidCommit, []).
Proof. reflexivity. Qed.

(** ** What each function sends *)

Lemma history_queries_app evs1 evs2 :
  history_queries (evs1 ++ evs2) = (history_queries evs1 + history_queries evs2)%nat.
Proof.
  induction evs1 as [|[[o r|o r v|j]|secs] evs1 IH]; simpl; auto.
Qed.

Section Issues.

Context {A B : Type}.

Lemma issues_weaken n n' (m : M A) :
  (n <= n')%nat -> issues_at_most n m -> issues_at_most n' m.
Proof. intros Hle H t. destruct (H t) as [evs [Heq Hn]]. exists evs. split; [auto|lia]. Qed.

Lemma issues_silent (m : M A) :
  (forall t, snd (m t) = t) -> issues_at_most 0 m.
Proof. intros H t. exists []. rewrite H. split; [reflexivity|simpl; lia]. Qed.

Lemma issues_bind n1 n2 (m : M A) (k : A -> M B) :
  issues_at_most n1 m -> (forall a, issues_at_most n2 (k a)) ->
  issues_at_most (n1 + n2) (bind m k).
Proof.
  intros Hm Hk t. unfold bind.
  destruct (Hm t) as [evs1 [H1 Hn1]].
  destruct (m t) as [[a|f|x|] t1]; simpl in H1; subst t1;
    try (exists evs1; split; [reflexivity|lia]).
  destruct (Hk a (evs1 ++ t)) as [evs2 [H2 Hn2]].
  exists (evs2 ++ evs1). rewrite H2, app_assoc. split; [reflexivity|].
  rewrite history_queries_app. lia.
Qed.

End Issues.

Lemma issues_ret {A} (a : A) : issues_at_most 0 (ret a).
Proof. apply issues_silent. reflexivity. Qed.

Lemma issues_raise {A} f : issues_at_most 0 (@raise A f).
Proof. apply issues_silent. reflexivity. Qed.

Lemma issues_lift {A} (r : result A) : issues_at_most 0 (lift r).
Proof. apply issues_silent. reflexivity. Qed.

Lemma issues_sleep secs : issues_at_most 0 (sleep secs).
Proof. intros t. exists [Sleep secs]. split; [reflexivity|simpl; lia]. Qed.

Lemma issues_time E : issues_at_most 0 (time_time E).
Proof. apply issues_silent. reflexivity. Qed.

Lemma issues_fail_if b f : issues_at_most 0 (fail_if b f).
Proof. destruct b; [apply issues_raise|apply issues_ret]. Qed.

Lemma issues_query_api E ep :
  issues_at_most (history_queries [Get ep]) (query_api E ep).
Proof. intros t. exists [Get ep]. rewrite query_api_trace. split; [reflexivity|lia]. Qed.

Lemma validate_silent E config t : snd (validate E config t) = t.
Proof.
  destruct (validate_outcome E config t) as [H|[f [_ H]]]; rewrite H; reflexivity.
Qed.

Lemma get_build_version_trace E config t :
  snd (get_build_version E config t) = Get (History (owner config) (repo config)) :: t.
Proof.
  unfold get_build_version, bind at 1.
  pose proof (query_api_trace E (History (owner config) (repo config)) t) as Hq.
  destruct (query_api E (History (owner config) (repo config)) t) as [[j|f|x|] t1];
    simpl in Hq; subst t1; try reflexivity.
  unfold bind, lift, raise.
  destruct (py_contains "builds" j) as [[|]| | |]; simpl; try reflexivity.
  destruct (py_getitem j "builds") as [b| | |]; simpl; try reflexivity.
  destruct (py_iter b); reflexivity.
Qed.

Lemma issues_get_job_ids E build_version config :
  issues_at_most 0 (get_job_ids E build_version config).
Proof.
  unfold get_job_ids.
  apply (issues_bind 0 0); [apply (issues_query_api E (BuildAt _ _ _))|]. intros json_data.
  apply (issues_bind 0 0); [apply issues_lift|]. intros [|]; simpl; [|apply issues_raise].
  apply (issues_bind 0 0); [apply issues_lift|]. intros build.
  apply (issues_bind 0 0); [apply issues_lift|]. intros [|]; simpl; [|apply issues_raise].
  apply (issues_bind 0 0); [apply issues_lift|]. intros jobs.
  apply (issues_bind 0 0); [apply issues_lift|]. intros items.
  apply issues_lift.
Qed.

Lemma issues_wait_for_jobs E fuel build_version config start_time :
  issues_at_most 0 (wait_for_jobs E fuel build_version config start_time).
Proof.
  induction fuel as [|fuel IH]; simpl; [apply issues_lift|].
  apply (issues_bind 0 0); [apply issues_get_job_ids|]. intros job_ids.
  apply (issues_bind 0 0); [apply issues_lift|]. intros statuses.
  destruct (set_mem "failed" statuses).
  { apply (issues_bind 0 0); [apply issues_lift|]. intros job. apply issues_raise. }
  destruct (set_eq statuses _); [apply issues_ret|].
  apply (issues_bind 0 0).
  { destruct (set_mem "running" statuses); [apply issues_ret|].
    destruct (set_mem "queued" statuses); [apply issues_ret|].
    apply (issues_bind 0 0); [apply issues_lift|]. intros u. apply issues_raise. }
  intros _. apply (issues_bind 0 0).
  { destruct (nonempty (timeout config)); [|apply issues_ret].
    apply (issues_bind 0 0); [apply issues_time|]. intros now.
    apply (issues_bind 0 0); [apply issues_lift|]. intros expired. apply issues_fail_if. }
  intros _. apply (issues_bind 0 0); [apply issues_sleep|]. intros _. exact IH.
Qed.

Lemma issues_artifacts_loop E job_ids artifacts :
  issues_at_most 0 (artifacts_loop E job_ids artifacts).
Proof.
  revert artifacts. induction job_ids as [|job rest IH]; intros artifacts; simpl.
  - apply issues_ret.
  - apply (issues_bind 0 0); [apply (issues_query_api E (Artifacts _))|]. intros json_data.
    apply (issues_bind 0 0); [apply issues_lift|]. intros listing.
    apply (issues_bind 0 0); [apply issues_lift|]. intros entries. apply IH.
Qed.

Lemma issues_wait_for_queue E attempts config build_version :
  issues_at_most attempts (wait_for_queue E attempts config build_version).
Proof.
  revert build_version. induction attempts as [|n IH]; intros build_version; simpl.
  - apply issues_ret.
  - apply (issues_bind 1 n).
    + intros t. exists [Get (History (owner config) (repo config))].
      rewrite get_build_version_trace. split; [reflexivity|simpl; lia].
    + intros bv. destruct (truthy bv).
      * apply issues_weaken with (n := 0%nat); [lia|apply issues_ret].
      * apply (issues_bind 0 n); [apply issues_sleep|]. intros _. apply IH.
Qed.

Lemma bind_assoc {A B C} (m : M A) (k1 : A -> M B) (k2 : B -> M C) t :
  bind (bind m k1) k2 t = bind m (fun a => bind (k1 a) k2) t.
Proof. unfold bind. destruct (m t) as [[a|f|x|] t1]; reflexivity. Qed.

Lemma issues_after {A B} (m : M A) (k : A -> M B) n e t :
  snd (m t) = e :: t -> (forall a, issues_at_most n (k a)) ->
  exists evs, snd (bind m k t) = evs ++ e :: t /\ (history_queries evs <= n)%nat.
Proof.
  intros Hm Hk. unfold bind.
  destruct (m t) as [[a|f|x|] t1]; simpl in Hm; subst t1;
    try (exists []; split; [reflexivity|simpl; lia]).
  apply Hk.
Qed.

Lemma wait_for_queue_S E attempts config build_version :
  wait_for_queue E (S attempts) config build_version
  = (found <- get_build_version E config ;;
     if truthy found then ret found
     else (sleep SLEEP_FOR ;; wait_for_queue E attempts config found)).
Proof. reflexivity. Qed.

(** Once [validate] has passed, the first thing [main] does is ask for the
    history, and it asks for it at most twice more. *)
Lemma main_events E fuel config t :
  validate E config t = (Ret tt, t) ->
  exists evs,
    snd (main E fuel config t) = evs ++ Get (History (owner config) (repo config)) :: t
    /\ (history_queries evs <= 2)%nat.
Proof.
  intros Hv. unfold main. rewrite (bind_eq _ _ _ _ _ Hv).
  rewrite wait_for_queue_S, bind_assoc.
  apply issues_after; [apply get_build_version_trace|]. intros bv.
  apply (issues_bind 2 0).
  - destruct (truthy bv).
    + apply issues_weaken with (n := 0%nat); [lia|apply issues_ret].
    + apply (issues_bind 0 2); [apply issues_sleep|]. intros _.
      apply issues_wait_for_queue.
  - intros build_version.
    destruct (negb (truthy build_version)); [apply issues_raise|].
    apply (issues_bind 0 0); [apply issues_time|]. intros start_time.
    apply (issues_bind 0 0); [apply issues_wait_for_jobs|]. intros job_ids.
    apply (issues_bind 0 0); [apply issues_artifacts_loop|]. intros artifacts.
    apply issues_ret.
Qed.

Lemma issues_main E fuel config : issues_at_most 3 (main E fuel config).
Proof.
  intros t. destruct (validate_outcome E config t) as [Hv|[f [_ Hv]]].
  - destruct (main_events E fuel config t Hv) as [evs [Heq Hn]].
    exists (evs ++ [Get (History (owner config) (repo config))]).
    rewrite Heq, <- app_assoc. split; [reflexivity|].
    rewrite history_queries_app. simpl. lia.
  - exists []. unfold main, bind at 1. rewrite Hv. split; [reflexivity|simpl; lia].
Qed.

(** ** The bounded wait for the build *)

Lemma get_build_version_none E config t :
  fst (get_build_version E config t) = Ret JNull ->
  get_build_version E config t
  = (Ret JNull, Get (History (owner config) (repo config)) :: t).
Proof.
  intros H. rewrite (surjective_pairing (get_build_version E config t)).
  rewrite H, get_build_version_trace. reflexivity.
Qed.

(** C7.  [main] looks for the build at most three times, five seconds
    apart: no run sends a fourth history query; and when the three lookups
    find no matching build, the run ends with the handled failure logged as
    'Timed out waiting for job to be queued or build not found.', after
    exactly three history queries, each followed by a five second sleep. *)
Theorem build_location_bounded_retry E fuel config t :
  (exists evs, snd (main E fuel config t) = evs ++ t /\ (history_queries evs <= 3)%nat)
  /\ (let history := Get (History (owner config) (repo config)) in
      let t1 := Sleep 5 :: history :: t in
      let t2 := Sleep 5 :: history :: t1 in
      validate E config t = (Ret tt, t) ->
      fst (get_build_version E config t) = Ret JNull ->
      fst (get_build_version E config t1) = Ret JNull ->
      fst (get_build_version E config t2) = Ret JNull ->
      main E fuel config t = (Handled QueueTimedOut, Sleep 5 :: history :: t2)).
Proof.
  split; [apply issues_main|].
  intros history t1 t2 Hv H0 H1 H2.
  apply get_build_version_none in H0, H1, H2.
  subst history t1 t2.
  unfold main. rewrite (bind_eq _ _ _ _ _ Hv).
  simpl wait_for_queue. unfold bind, sleep, ret, raise, SLEEP_FOR.
  rewrite H0. simpl. rewrite H1. simpl. rewrite H2. reflexivity.
Qed.

Lemma build_location_bounded_retry_witness :
  main (Scenario.constant_service Py3 Scenario.stale_history) 1 Scenario.tagged_identity []
  = (Handled QueueTimedOut,
     [Sleep 5; Get (History "me" "project");
      Sleep 5; Get (History "me" "project");
      Sleep 5; Get (History "me" "project")]).
Proof.
  apply (proj2 (build_location_bounded_retry
                  (Scenario.constant_service Py3 Scenario.stale_history) 1
                  Scenario.tagged_identity [])); reflexivity.
Defined.

(** C10.  An identity field is looked at only when it is given: with a
    well-formed owner and repository (and admissible values for the options
    that are not part of the identity), a configuration whose commit, tag and
    pull request number are each empty or well-formed passes [validate], and
    the run goes on to ask for the build history.  The witness has all three
    empty. *)
Theorem identity_fields_optional E fuel config t :
  REGEX_GENERAL (owner config) = true ->
  REGEX_GENERAL (repo config) = true ->
  commit config = "" \/ REGEX_COMMIT (commit config) = true ->
  tag config = "" \/ REGEX_GENERAL (tag config) = true ->
  pull_request config = "" \/ isdigit E (pull_request config) = true ->
  always_job_dirs config && nonempty (no_job_dirs config) = false ->
  dir config = "" \/ isdir E (dir config) = true ->
  In (no_job_dirs config) [""; "rename"; "overwrite"; "skip"] ->
  timeout config = "" \/ isdigit E (timeout config) = true ->
  validate E config t = (Ret tt, t)
  /\ exists r evs,
      main E fuel config t = (r, evs ++ Get (History (owner config) (repo config)) :: t).
Proof.
  intros Ho Hr Hc Ht Hp Hj Hd Hn Hto.
  assert (Hv : validate E config t = (Ret tt, t)).
  { apply validate_ok_iff. repeat split.
    - exact Hj.
    - destruct Hc as [->| ->]; [reflexivity|apply andb_false_r].
    - destruct Hd as [->| ->]; [reflexivity|apply andb_false_r].
    - apply negb_false_iff, existsb_exists. exists (no_job_dirs config).
      split; [exact Hn|apply String.eqb_refl].
    - rewrite (REGEX_GENERAL_nonempty _ Ho), Ho. reflexivity.
    - destruct Hp as [->| ->]; [reflexivity|apply andb_false_r].
    - rewrite (REGEX_GENERAL_nonempty _ Hr), Hr. reflexivity.
    - destruct Ht as [->| ->]; [reflexivity|apply andb_false_r].
    - destruct Hto as [->| ->]; [reflexivity|apply andb_false_r]. }
  split; [exact Hv|].
  destruct (main_events E fuel config t Hv) as [evs [Heq _]].
  exists (fst (main E fuel config t)), evs.
  rewrite <- Heq. apply surjective_pairing.
Qed.

Lemma identity_fields_optional_witness :
  validate (Scenario.constant_service Py3 Scenario.stale_history) Scenario.base_config []
  = (Ret tt, [])
  /\ exists r evs,
      main (Scenario.constant_service Py3 Scenario.stale_history) 1 Scenario.base_config []
      = (r, evs ++ [Get (History "me" "project")]).
Proof.
  apply (identity_fields_optional
           (Scenario.constant_service Py3 Scenario.stale_history) 1 Scenario.base_config []).
  - reflexivity.
  - reflexivity.
  - left. reflexivity.
  - left. reflexivity.
  - left. reflexivity.
  - reflexivity.
  - left. reflexivity.
  - left. reflexivity.
  - left. reflexivity.
Defined.

(** ** [get_artifacts_urls] *)

Lemma artifact_entries_named job listing :
  (forall a, In a listing -> exists name, py_getitem a "fileName" = Ret name) ->
  artifact_entries job listing = Ret (map (fun a => (job, file_name a)) listing).
Proof.
  induction listing as [|a rest IH]; intros H; simpl; [reflexivity|].
  destruct (H a (or_introl eq_refl)) as [name Hname].
  unfold file_name at 1. rewrite Hname. simpl.
  rewrite IH; [reflexivity|]. intros a' Hin. apply H. right. exact Hin.
Qed.

Lemma artifacts_loop_in_order E job_ids (listing : json -> list json) artifacts t :
  (forall job t', In job job_ids ->
     exists status_code text,
       respond E t' (Artifacts job)
       = Response true status_code text (Some (JArr (listing job)))) ->
  (forall job a, In job job_ids -> In a (listing job) ->
     exists name, py_getitem a "fileName" = Ret name) ->
  artifacts_loop E job_ids artifacts t
  = (Ret (artifacts
          ++ flat_map (fun job => map (fun a => (job, file_name a)) (listing job)) job_ids),
     rev (map (fun job => Get (Artifacts job)) job_ids) ++ t).
Proof.
  revert artifacts t. induction job_ids as [|job rest IH]; intros artifacts t Hr Hn; simpl.
  - rewrite app_nil_r. reflexivity.
  - destruct (Hr job t (or_introl eq_refl)) as [sc [text Hreply]].
    rewrite (bind_eq _ _ _ _ _ (query_api_ok E _ t sc text _ Hreply)).
    unfold bind at 1, lift at 1. simpl py_iter. cbv iota.
    unfold bind at 1, lift at 1.
    rewrite artifact_entries_named by (intros a Hin; apply (Hn job a); [left; reflexivity|exact Hin]).
    rewrite IH.
    + rewrite <- !app_assoc. reflexivity.
    + intros job' t' Hin. apply Hr. right. exact Hin.
    + intros job' a Hin. apply Hn. right. exact Hin.
Qed.

(** C8.  When the service answers the artifact query of every listed job
    with that job's listing, each entry carrying a file name, the result is
    the jobs' listings put end to end: one (job id, file name) pair for every
    entry, jobs in the order given and entries in the order listed, after one
    artifact query per job in that same order.  (An empty list of jobs gives
    the empty list, and a job with an empty listing adds nothing.) *)
Theorem artifacts_in_order E job_ids (listing : json -> list json) t :
  (forall job t', In job job_ids ->
     exists status_code text,
       respond E t' (Artifacts job)
       = Response true status_code text (Some (JArr (listing job)))) ->
  (forall job a, In job job_ids -> In a (listing job) ->
     exists name, py_getitem a "fileName" = Ret name) ->
  get_artifacts_urls E job_ids t
  = (Ret (flat_map (fun job => map (fun a => (job, file_name a)) (listing job)) job_ids),
     rev (map (fun job => Get (Artifacts job)) job_ids) ++ t).
Proof.
  intros Hr Hn. unfold get_artifacts_urls.
  rewrite (artifacts_loop_in_order E job_ids listing [] t Hr Hn). reflexivity.
Qed.

Lemma artifacts_in_order_witness :
  get_artifacts_urls Scenario.artifact_service [JStr "a"; JStr "b"] []
  = (Ret [(JStr "a", JStr ".coverage")],
     [Get (Artifacts (JStr "b")); Get (Artifacts (JStr "a"))]).
Proof.
  apply (artifacts_in_order Scenario.artifact_service [JStr "a"; JStr "b"]
           Scenario.artifacts_of []).
  - intros job t' _. exists 200, "{...}". reflexivity.
  - intros job a [<-|[<-|[]]] Hin.
    + destruct Hin as [<-|[]]. exists (JStr ".coverage"). reflexivity.
    + destruct Hin.
Defined.

(** No job, no query, no artifact, no failure. *)
Example no_jobs_no_artifacts E t : get_artifacts_urls E [] t = (Ret [], t).
Proof. reflexivity. Qed.

(** * Further properties of the code *)

(** ** [query_api], beyond the failures *)

(** X1.  [query_api] returns a value exactly when the reply has a successful
    status and a body that decodes, and the value is the decoded body: no
    failed status, time-out or transport error ever yields a value. *)
Theorem query_api_returns_iff E ep t j :
  fst (query_api E ep t) = Ret j
  <-> exists status_code text, respond E t ep = Response true status_code text (Some j).
Proof.
  run. destruct (respond E t ep) as [| | ok sc text body]; simpl.
  - split; [discriminate|intros (? & ? & H); discriminate H].
  - split; [discriminate|intros (? & ? & H); discriminate H].
  - destruct ok; simpl.
    + destruct body as [j'|]; simpl.
      * split.
        -- intros H. inversion H. eauto.
        -- intros (? & ? & H). inversion H. reflexivity.
      * split; [discriminate|intros (? & ? & H); discriminate H].
    + split.
      * destruct body as [j'|]; simpl; [|discriminate].
        destruct (py_get j' "message") as [m| | |]; simpl; try discriminate.
        destruct (truthy m); discriminate.
      * intros (? & ? & H). discriminate H.
Qed.

(** X2.  A failed status whose body is a JSON object without a message, or
    with an empty one, is reported as an unknown error carrying the status
    and the raw text of the body. *)
Theorem query_api_error_without_message E ep t status_code text fields :
  respond E t ep = Response false status_code text (Some (JObj fields)) ->
  assoc "message" fields = None
  \/ (exists m, assoc "message" fields = Some m /\ truthy m = false) ->
  query_api E ep t = (Handled (HttpUnknownError status_code text), Get ep :: t).
Proof.
  intros Hr Hm. run. rewrite Hr. simpl.
  destruct Hm as [->|[m [-> Hm]]]; simpl; [reflexivity|].
  rewrite Hm. reflexivity.
Qed.

Lemma query_api_error_without_message_witness :
  query_api
    (Scenario.constant_service Py3
       (Response false 404 "{...}" (Some (JObj [("message", JStr "")]))))
    (History "me" "project") []
  = (Handled (HttpUnknownError 404 "{...}"), [Get (History "me" "project")]).
Proof.
  apply (query_api_error_without_message
           (Scenario.constant_service Py3
              (Response false 404 "{...}" (Some (JObj [("message", JStr "")]))))
           (History "me" "project") [] 404 "{...}" [("message", JStr "")]).
  - reflexivity.
  - right. exists (JStr ""). split; reflexivity.
Defined.

(** ** [validate], beyond the identity *)

(** X3.  [validate] ends in one of two ways, it returns or it raises one of
    its own nine handled failures; it never raises anything else and never
    sends a request or sleeps. *)
Theorem validate_never_crashes E config t :
  snd (validate E config t) = t
  /\ (fst (validate E config t) = Ret tt
      \/ exists f, validation_failure f = true /\ fst (validate E config t) = Handled f).
Proof.
  destruct (validate_outcome E config t) as [H|[f [Hf H]]]; rewrite H; simpl.
  - split; [reflexivity|left; reflexivity].
  - split; [reflexivity|right; exists f; auto].
Qed.

(** *** The two patterns *)

Lemma at_dollar_iff rest :
  at_dollar rest = true <-> rest = "" \/ rest = String newline "".
Proof.
  destruct rest as [|c [|c' rest]]; simpl.
  - split; auto.
  - rewrite Ascii.eqb_eq. split.
    + intros ->. auto.
    + intros [H|H]; [discriminate H|]. inversion H. reflexivity.
  - split; [discriminate|]. intros [H|H]; discriminate H.
Qed.

(** What the matcher accepts: some characters of the class, as many as the
    bounds allow, then the end of the subject. *)
Lemma class_repeat_iff cls lo hi n s :
  class_repeat cls lo hi n s = true <->
  exists body rest,
    s = String.append body rest
    /\ all_chars cls body = true
    /\ at_dollar rest = true
    /\ (lo <= n + String.length body)%nat
    /\ match hi with Some h => (n + String.length body <= h)%nat | None => True end.
Proof.
  revert n. induction s as [|c s IH]; intros n.
  - simpl. rewrite orb_false_r, andb_true_r. split.
    + intros H. exists "", "". simpl. rewrite Nat.add_0_r.
      apply andb_true_iff in H as [H1 H2]. apply Nat.leb_le in H1.
      repeat split; auto. destruct hi; [apply Nat.leb_le; exact H2|exact I].
    + intros (body & rest & Hs & _ & _ & Hlo & Hhi).
      destruct body; [|discriminate Hs]. simpl in *. rewrite Nat.add_0_r in *.
      apply andb_true_iff. split; [apply Nat.leb_le; exact Hlo|].
      destruct hi; [apply Nat.leb_le; exact Hhi|reflexivity].
  - cbn [class_repeat]. rewrite orb_true_iff. split.
    + intros [H|H].
      * apply andb_true_iff in H as [H Hd]. apply andb_true_iff in H as [H1 H2].
        exists "", (String c s). simpl. rewrite Nat.add_0_r. apply Nat.leb_le in H1.
        repeat split; auto. destruct hi; [apply Nat.leb_le; exact H2|exact I].
      * apply andb_true_iff in H as [Hc H]. apply IH in H.
        destruct H as (body & rest & Hs & Hall & Hd & Hlo & Hhi).
        exists (String c body), rest. simpl. rewrite Hc, Hall, <- Hs.
        rewrite Nat.add_succ_r. simpl in Hlo, Hhi. repeat split; auto.
    + intros (body & rest & Hs & Hall & Hd & Hlo & Hhi). destruct body as [|c' body].
      * left. cbn [String.append] in Hs. subst rest. cbn [String.length] in Hlo, Hhi.
        rewrite Nat.add_0_r in Hlo, Hhi. rewrite Hd, andb_true_r.
        apply andb_true_iff. split; [apply Nat.leb_le; exact Hlo|].
        destruct hi; [apply Nat.leb_le; exact Hhi|reflexivity].
      * right. simpl in Hs. inversion Hs; subst c' s. simpl in Hall.
        apply andb_true_iff in Hall as [Hc Hall]. rewrite Hc. simpl.
        apply IH. exists body, rest. simpl in Hlo, Hhi. rewrite Nat.add_succ_r in Hlo, Hhi.
        repeat split; auto.
Qed.

(** X4.  The commits [REGEX_COMMIT] lets through are the strs made of 7 to
    40 characters among [0-9a-f], and the same followed by one newline. *)
Theorem REGEX_COMMIT_accepts s :
  REGEX_COMMIT s = true <->
  exists body,
    (s = body \/ s = String.append body (String newline ""))
    /\ all_chars hex_lower body = true
    /\ (7 <= String.length body <= 40)%nat.
Proof.
  unfold REGEX_COMMIT. rewrite class_repeat_iff. split.
  - intros (body & rest & Hs & Hall & Hd & Hlo & Hhi). exists body.
    apply at_dollar_iff in Hd. simpl in Hlo, Hhi. split; [|split; [exact Hall|lia]].
    destruct Hd as [-> | ->]; [left|right; exact Hs].
    rewrite Hs. clear. induction body; simpl; congruence.
  - intros (body & Hs & Hall & Hlen).
    destruct Hs as [Hs|Hs].
    + exists body, "". simpl. repeat split; auto; try lia.
      rewrite Hs. clear. induction body; simpl; congruence.
    + exists body, (String newline ""). simpl. repeat split; auto; lia.
Qed.

(** X5.  The owners, repositories and tags [REGEX_GENERAL] lets through are
    the non-empty strs made of letters, digits, dots, underscores and
    hyphens, and the same followed by one newline. *)
Theorem REGEX_GENERAL_accepts s :
  REGEX_GENERAL s = true <->
  exists body,
    (s = body \/ s = String.append body (String newline ""))
    /\ all_chars general_char body = true
    /\ body <> "".
Proof.
  unfold REGEX_GENERAL. rewrite class_repeat_iff. split.
  - intros (body & rest & Hs & Hall & Hd & Hlo & _). exists body.
    apply at_dollar_iff in Hd. simpl in Hlo. split; [|split; [exact Hall|]].
    + destruct Hd as [-> | ->]; [left|right; exact Hs].
      rewrite Hs. clear. induction body; simpl; congruence.
    + intros ->. simpl in Hlo. lia.
  - intros (body & Hs & Hall & Hne).
    assert (Hlen : (1 <= String.length body)%nat).
    { destruct body; [congruence|simpl; lia]. }
    destruct Hs as [Hs|Hs].
    + exists body, "". simpl. repeat split; auto.
      rewrite Hs. clear. induction body; simpl; congruence.
    + exists body, (String newline ""). simpl. repeat split; auto.
Qed.

(** ** [get_build_version], beyond the first match *)

Lemma find_build_none config builds :
  Forall (fun b => build_matches config b = Ret false) builds ->
  find_build config builds = Ret JNull.
Proof.
  induction 1 as [|b builds Hb _ IH]; simpl; [reflexivity|]. rewrite Hb. exact IH.
Qed.

(** X6.  A history reply that is a JSON object without the key 'builds' is
    a handled failure, reported as such after the one query. *)
Theorem get_build_version_missing_builds E config t status_code text fields :
  respond E t (History (owner config) (repo config))
  = Response true status_code text (Some (JObj fields)) ->
  assoc "builds" fields = None ->
  get_build_version E config t
  = (Handled BuildsKeyMissing, Get (History (owner config) (repo config)) :: t).
Proof.
  intros Hr Hb. unfold get_build_version.
  rewrite (bind_eq _ _ _ _ _ (query_api_ok E _ t _ _ _ Hr)).
  unfold bind, lift, raise. simpl. rewrite Hb. reflexivity.
Qed.

Lemma get_build_version_missing_builds_witness :
  get_build_version
    (Scenario.constant_service Py3 (Scenario.ok_reply (JObj [("message", JStr "hello")])))
    Scenario.tagged_identity []
  = (Handled BuildsKeyMissing, [Get (History "me" "project")]).
Proof.
  apply (get_build_version_missing_builds
           (Scenario.constant_service Py3 (Scenario.ok_reply (JObj [("message", JStr "hello")])))
           Scenario.tagged_identity [] 200 "{...}" [("message", JStr "hello")]);
    reflexivity.
Defined.

(** X7.  When no build of the history matches the identity, the empty
    history included, [get_build_version] returns [None]: that is not a
    failure, the caller decides what to do. *)
Theorem get_build_version_no_match E config t status_code text fields builds :
  respond E t (History (owner config) (repo config))
  = Response true status_code text (Some (JObj fields)) ->
  assoc "builds" fields = Some (JArr builds) ->
  Forall (fun b => build_matches config b = Ret false) builds ->
  get_build_version E config t
  = (Ret JNull, Get (History (owner config) (repo config)) :: t).
Proof.
  intros Hr Hb Hno. rewrite (get_build_version_scan E config t _ _ _ _ Hr Hb).
  rewrite (find_build_none _ _ Hno). reflexivity.
Qed.

Lemma get_build_version_no_match_witness :
  get_build_version (Scenario.constant_service Py3 Scenario.stale_history)
                    Scenario.tagged_identity []
  = (Ret JNull, [Get (History "me" "project")]).
Proof.
  apply (get_build_version_no_match
           (Scenario.constant_service Py3 Scenario.stale_history)
           Scenario.tagged_identity [] 200 "{...}"
           [("builds", JArr [Scenario.other_build])] [Scenario.other_build]).
  - reflexivity.
  - reflexivity.
  - repeat constructor.
Defined.

(** X8.  With an identity that has a commit only, a build that lacks the
    key 'commitId' ends the scan with [KeyError] when the scan gets to it,
    whatever the builds after it. *)
Theorem find_build_missing_commit config pre fields post :
  tag config = "" ->
  pull_request config = "" ->
  Forall (fun b => build_matches config b = Ret false) pre ->
  assoc "commitId" fields = None ->
  find_build config (pre ++ JObj fields :: post) = Crash KeyError.
Proof.
  intros Ht Hp Hpre Hc. induction Hpre as [|b pre Hb _ IH]; simpl.
  - unfold build_matches. rewrite Ht, Hp. simpl. rewrite Hc. reflexivity.
  - rewrite Hb. exact IH.
Qed.

Lemma find_build_missing_commit_witness :
  find_build Scenario.one_second
    ([Scenario.other_build] ++ JObj [("version", JStr "1.0.4")] :: [Scenario.push_build])
  = Crash KeyError.
Proof.
  apply (find_build_missing_commit Scenario.one_second [Scenario.other_build]
           [("version", JStr "1.0.4")] [Scenario.push_build]).
  - reflexivity.
  - reflexivity.
  - repeat constructor.
  - reflexivity.
Defined.

(** ** [get_job_ids] *)

Lemma get_job_ids_collect E build_version config t status_code text fields bfields items :
  respond E t (BuildAt (owner config) (repo config) build_version)
  = Response true status_code text (Some (JObj fields)) ->
  assoc "build" fields = Some (JObj bfields) ->
  assoc "jobs" bfields = Some (JArr items) ->
  get_job_ids E build_version config t
  = (collect_jobs config items [],
     Get (BuildAt (owner config) (repo config) build_version) :: t).
Proof.
  intros Hr Hb Hj. unfold get_job_ids.
  rewrite (bind_eq _ _ _ _ _ (query_api_ok E _ t _ _ _ Hr)).
  unfold bind, lift, raise. simpl. rewrite Hb. simpl. rewrite Hj. reflexivity.
Qed.

Lemma collect_jobs_all config items all_jobs :
  job_name config = "" ->
  Forall has_id_and_status items ->
  collect_jobs config items all_jobs
  = Ret (all_jobs ++ map (fun job => (item job "jobId", item job "status")) items).
Proof.
  intros Hn Hall. revert all_jobs.
  induction Hall as [|job items [[id Hid] [st Hst]] _ IH]; intros all_jobs; simpl.
  - rewrite Hn, app_nil_r. reflexivity.
  - rewrite Hn. simpl. unfold item. rewrite Hid, Hst. simpl.
    rewrite IH, <- app_assoc. reflexivity.
Qed.

(** X9.  Without a job name to look for, [get_job_ids] returns one
    (job id, status) pair for every job of the build, in the order of the
    reply. *)
Theorem get_job_ids_all_jobs E build_version config t status_code text fields bfields items :
  respond E t (BuildAt (owner config) (repo config) build_version)
  = Response true status_code text (Some (JObj fields)) ->
  assoc "build" fields = Some (JObj bfields) ->
  assoc "jobs" bfields = Some (JArr items) ->
  job_name config = "" ->
  Forall has_id_and_status items ->
  get_job_ids E build_version config t
  = (Ret (map (fun job => (item job "jobId", item job "status")) items),
     Get (BuildAt (owner config) (repo config) build_version) :: t).
Proof.
  intros Hr Hb Hj Hn Hall.
  rewrite (get_job_ids_collect E build_version config t _ _ _ _ _ Hr Hb Hj).
  rewrite (collect_jobs_all config items [] Hn Hall). reflexivity.
Qed.

Lemma get_job_ids_all_jobs_witness :
  get_job_ids (Scenario.constant_service Py3 Scenario.matrix_reply)
              (JStr "1.0.1") Scenario.base_config []
  = (Ret [(JStr "a", JStr "running"); (JStr "b", JStr "success")],
     [Get Scenario.build_endpoint]).
Proof.
  apply (get_job_ids_all_jobs
           (Scenario.constant_service Py3 Scenario.matrix_reply)
           (JStr "1.0.1") Scenario.base_config [] 200 "{...}"
           [("build", JObj [("jobs", JArr [Scenario.job "a" "running";
                                           Scenario.job "b" "success"])])]
           [("jobs", JArr [Scenario.job "a" "running"; Scenario.job "b" "success"])]
           [Scenario.job "a" "running"; Scenario.job "b" "success"]).
  - reflexivity.
  - reflexivity.
  - reflexivity.
  - reflexivity.
  - repeat constructor; eexists; reflexivity.
Defined.

Lemma collect_jobs_skips config pre rest all_jobs :
  job_name config <> "" ->
  Forall (fun job => named_otherwise config job /\ has_id_and_status job) pre ->
  exists all_jobs', collect_jobs config (pre ++ rest) all_jobs
                    = collect_jobs config rest all_jobs'.
Proof.
  intros Hn Hpre. apply nonempty_true in Hn. revert all_jobs.
  induction Hpre as [|job pre [[name [Hname Hne]] [[id Hid] [st Hst]]] _ IH];
    intros all_jobs; simpl.
  - exists all_jobs. reflexivity.
  - rewrite Hn, Hname. simpl. rewrite Hne, Hid, Hst. simpl. apply IH.
Qed.

(** X10.  With a job name to look for, [get_job_ids] returns the first job
    of that name, alone: the jobs before it are left out and the jobs after
    it are not even looked at. *)
Theorem get_job_ids_named_job E build_version config t status_code text fields bfields
    pre job post id status :
  respond E t (BuildAt (owner config) (repo config) build_version)
  = Response true status_code text (Some (JObj fields)) ->
  assoc "build" fields = Some (JObj bfields) ->
  assoc "jobs" bfields = Some (JArr (pre ++ job :: post)) ->
  job_name config <> "" ->
  Forall (fun job => named_otherwise config job /\ has_id_and_status job) pre ->
  py_getitem job "name" = Ret (JStr (job_name config)) ->
  py_getitem job "jobId" = Ret id ->
  py_getitem job "status" = Ret status ->
  get_job_ids E build_version config t
  = (Ret [(id, status)], Get (BuildAt (owner config) (repo config) build_version) :: t).
Proof.
  intros Hr Hb Hj Hn Hpre Hname Hid Hst.
  rewrite (get_job_ids_collect E build_version config t _ _ _ _ _ Hr Hb Hj).
  destruct (collect_jobs_skips config pre (job :: post) [] Hn Hpre) as [acc ->].
  simpl. apply nonempty_true in Hn. rewrite Hn, Hname. simpl.
  rewrite String.eqb_refl, Hid, Hst. reflexivity.
Qed.

Lemma get_job_ids_named_job_witness :
  get_job_ids (Scenario.constant_service Py3 Scenario.matrix_reply)
              (JStr "1.0.1") Scenario.only_job_b []
  = (Ret [(JStr "b", JStr "success")], [Get Scenario.build_endpoint]).
Proof.
  apply (get_job_ids_named_job
           (Scenario.constant_service Py3 Scenario.matrix_reply)
           (JStr "1.0.1") Scenario.only_job_b [] 200 "{...}"
           [("build", JObj [("jobs", JArr [Scenario.job "a" "running";
                                           Scenario.job "b" "success"])])]
           [("jobs", JArr [Scenario.job "a" "running"; Scenario.job "b" "success"])]
           [Scenario.job "a" "running"] (Scenario.job "b" "success") []
           (JStr "b") (JStr "success")).
  - reflexivity.
  - reflexivity.
  - reflexivity.
  - discriminate.
  - repeat constructor; eexists; try split; reflexivity.
  - reflexivity.
  - reflexivity.
  - reflexivity.
Defined.

(** X11.  With a job name that no job of the build has, [get_job_ids]
    raises the handled failure that names it. *)
Theorem get_job_ids_name_not_found E build_version config t status_code text fields bfields
    items :
  respond E t (BuildAt (owner config) (repo config) build_version)
  = Response true status_code text (Some (JObj fields)) ->
  assoc "build" fields = Some (JObj bfields) ->
  assoc "jobs" bfields = Some (JArr items) ->
  job_name config <> "" ->
  Forall (fun job => named_otherwise config job /\ has_id_and_status job) items ->
  get_job_ids E build_version config t
  = (Handled (JobNameNotFound (job_name config)),
     Get (BuildAt (owner config) (repo config) build_version) :: t).
Proof.
  intros Hr Hb Hj Hn Hall.
  rewrite (get_job_ids_collect E build_version config t _ _ _ _ _ Hr Hb Hj).
  destruct (collect_jobs_skips config items [] [] Hn Hall) as [acc Hacc].
  rewrite app_nil_r in Hacc. rewrite Hacc. simpl.
  apply nonempty_true in Hn. rewrite Hn. reflexivity.
Qed.

Lemma get_job_ids_name_not_found_witness :
  get_job_ids (Scenario.constant_service Py3 Scenario.matrix_reply)
              (JStr "1.0.1") Scenario.only_job_c []
  = (Handled (JobNameNotFound "job c"), [Get Scenario.build_endpoint]).
Proof.
  apply (get_job_ids_name_not_found
           (Scenario.constant_service Py3 Scenario.matrix_reply)
           (JStr "1.0.1") Scenario.only_job_c [] 200 "{...}"
           [("build", JObj [("jobs", JArr [Scenario.job "a" "running";
                                           Scenario.job "b" "success"])])]
           [("jobs", JArr [Scenario.job "a" "running"; Scenario.job "b" "success"])]
           [Scenario.job "a" "running"; Scenario.job "b" "success"]).
  - reflexivity.
  - reflexivity.
  - reflexivity.
  - discriminate.
  - repeat constructor; eexists; try split; reflexivity.
Defined.

(** X12.  A build reply that is a JSON object without the key 'build', or
    whose 'build' is an object without the key 'jobs', is a handled failure
    that says which key is missing. *)
Theorem get_job_ids_missing_key E build_version config t status_code text fields :
  respond E t (BuildAt (owner config) (repo config) build_version)
  = Response true status_code text (Some (JObj fields)) ->
  assoc "build" fields = None
  \/ (exists bfields, assoc "build" fields = Some (JObj bfields)
                      /\ assoc "jobs" bfields = None) ->
  get_job_ids E build_version config t
  = (Handled (match assoc "build" fields with
              | None => BuildKeyMissing
              | Some _ => JobsKeyMissing
              end),
     Get (BuildAt (owner config) (repo config) build_version) :: t).
Proof.
  intros Hr Hk. unfold get_job_ids.
  rewrite (bind_eq _ _ _ _ _ (query_api_ok E _ t _ _ _ Hr)).
  unfold bind, lift, raise. simpl.
  destruct Hk as [->|[bfields [-> Hj]]]; simpl; [reflexivity|].
  rewrite Hj. reflexivity.
Qed.

Lemma get_job_ids_missing_key_witness :
  get_job_ids
    (Scenario.constant_service Py3 (Scenario.ok_reply (JObj [("build", JObj [])])))
    (JStr "1.0.1") Scenario.base_config []
  = (Handled JobsKeyMissing, [Get Scenario.build_endpoint]).
Proof.
  apply (get_job_ids_missing_key
           (Scenario.constant_service Py3 (Scenario.ok_reply (JObj [("build", JObj [])])))
           (JStr "1.0.1") Scenario.base_config [] 200 "{...}" [("build", JObj [])]).
  - reflexivity.
  - right. exists []. split; reflexivity.
Defined.

(** ** [get_artifacts_urls], when something goes wrong *)

Lemma artifacts_loop_prefix E pre rest (listing : json -> list json) artifacts t :
  (forall job t', In job pre ->
     exists status_code text,
       respond E t' (Artifacts job)
       = Response true status_code text (Some (JArr (listing job)))) ->
  (forall job a, In job pre -> In a (listing job) ->
     exists name, py_getitem a "fileName" = Ret name) ->
  artifacts_loop E (pre ++ rest) artifacts t
  = artifacts_loop E rest
      (artifacts ++ flat_map (fun job => map (fun a => (job, file_name a)) (listing job)) pre)
      (rev (map (fun job => Get (Artifacts job)) pre) ++ t).
Proof.
  revert artifacts t. induction pre as [|job pre IH]; intros artifacts t Hr Hn; simpl.
  - rewrite app_nil_r. reflexivity.
  - destruct (Hr job t (or_introl eq_refl)) as [sc [text Hreply]].
    rewrite (bind_eq _ _ _ _ _ (query_api_ok E _ t sc text _ Hreply)).
    unfold bind at 1, lift at 1. simpl py_iter. cbv iota.
    unfold bind at 1, lift at 1.
    rewrite artifact_entries_named
      by (intros a Hin; apply (Hn job a); [left; reflexivity|exact Hin]).
    rewrite IH.
    + rewrite <- !app_assoc. reflexivity.
    + intros job' t' Hin. apply Hr. right. exact Hin.
    + intros job' a Hin. apply Hn. right. exact Hin.
Qed.

(** X13.  When the artifact query of one job ends in a handled failure,
    [get_artifacts_urls] ends in that failure: the pairs collected for the
    jobs before it are dropped and the jobs after it are never asked
    about. *)
Theorem artifacts_abort_on_failure E pre job post (listing : json -> list json) f t :
  (forall job t', In job pre ->
     exists status_code text,
       respond E t' (Artifacts job)
       = Response true status_code text (Some (JArr (listing job)))) ->
  (forall job a, In job pre -> In a (listing job) ->
     exists name, py_getitem a "fileName" = Ret name) ->
  (forall t', fst (query_api E (Artifacts job) t') = Handled f) ->
  get_artifacts_urls E (pre ++ job :: post) t
  = (Handled f, Get (Artifacts job) :: rev (map (fun job => Get (Artifacts job)) pre) ++ t).
Proof.
  intros Hr Hn Hf. unfold get_artifacts_urls.
  rewrite (artifacts_loop_prefix E pre (job :: post) listing [] t Hr Hn).
  simpl. unfold bind at 1.
  set (t1 := rev (map (fun job0 => Get (Artifacts job0)) pre) ++ t).
  pose proof (Hf t1) as H1. pose proof (query_api_trace E (Artifacts job) t1) as H2.
  destruct (query_api E (Artifacts job) t1) as [r t2]. simpl in H1, H2. subst r t2.
  reflexivity.
Qed.

Lemma artifacts_abort_on_failure_witness :
  get_artifacts_urls Scenario.flaky_artifact_service
                     ([JStr "a"] ++ JStr "b" :: [JStr "c"]) []
  = (Handled ServerTimedOut, [Get (Artifacts (JStr "b")); Get (Artifacts (JStr "a"))]).
Proof.
  apply (artifacts_abort_on_failure Scenario.flaky_artifact_service
           [JStr "a"] (JStr "b") [JStr "c"] (fun _ => [Scenario.coverage_entry])
           ServerTimedOut []).
  - intros job t' [<-|[]]. exists 200, "{...}". reflexivity.
  - intros job a _ [<-|[]]. exists (JStr ".coverage"). reflexivity.
  - intros t'. reflexivity.
Defined.

Lemma artifact_entries_nameless job before a after x :
  (forall b, In b before -> exists name, py_getitem b "fileName" = Ret name) ->
  py_getitem a "fileName" = Crash x ->
  artifact_entries job (before ++ a :: after) = Crash x.
Proof.
  intros Hb Ha. induction before as [|b before IH]; simpl.
  - rewrite Ha. reflexivity.
  - destruct (Hb b (or_introl eq_refl)) as [name ->]. simpl.
    rewrite IH; [reflexivity|]. intros b' Hin. apply Hb. right. exact Hin.
Qed.

(** X14.  An artifact entry without the key 'fileName' makes
    [get_artifacts_urls] raise [KeyError] as soon as the listing that holds
    it has been fetched. *)
Theorem artifacts_entry_without_name E job rest before fields after status_code text t :
  respond E t (Artifacts job)
  = Response true status_code text (Some (JArr (before ++ JObj fields :: after))) ->
  (forall b, In b before -> exists name, py_getitem b "fileName" = Ret name) ->
  assoc "fileName" fields = None ->
  get_artifacts_urls E (job :: rest) t = (Crash KeyError, Get (Artifacts job) :: t).
Proof.
  intros Hr Hb Hf. unfold get_artifacts_urls. simpl.
  rewrite (bind_eq _ _ _ _ _ (query_api_ok E _ t _ _ _ Hr)).
  unfold bind at 1, lift at 1. simpl py_iter. cbv iota.
  unfold bind at 1, lift at 1.
  rewrite (artifact_entries_nameless job before (JObj fields) after KeyError Hb);
    [reflexivity|]. simpl. rewrite Hf. reflexivity.
Qed.

Lemma artifacts_entry_without_name_witness :
  get_artifacts_urls
    (Scenario.constant_service Py3
       (Scenario.ok_reply (JArr ([Scenario.coverage_entry] ++ Scenario.nameless_entry :: []))))
    [JStr "a"; JStr "b"] []
  = (Crash KeyError, [Get (Artifacts (JStr "a"))]).
Proof.
  apply (artifacts_entry_without_name
           (Scenario.constant_service Py3
              (Scenario.ok_reply
                 (JArr ([Scenario.coverage_entry] ++ Scenario.nameless_entry :: []))))
           (JStr "a") [JStr "b"] [Scenario.coverage_entry]
           [("type", JStr "File"); ("size", JInt 0)] [] 200 "{...}" []).
  - reflexivity.
  - intros b [<-|[]]. exists (JStr ".coverage"). reflexivity.
  - reflexivity.
Defined.

(** ** The polling loop, beyond one iteration *)

(** X15.  Whatever the service, the clock, the interpreter and the
    configuration, the polling loop never ends with the handled failure for
    an unknown status, nor with the handled failure for an exhausted
    budget. *)
Theorem polling_never_reports_status_or_budget E fuel build_version config start_time t :
  (forall unknown,
      fst (wait_for_jobs E fuel build_version config start_time t)
      <> Handled (UnknownStatus unknown))
  /\ (forall njobs,
      fst (wait_for_jobs E fuel build_version config start_time t)
      <> Handled (JobsTimedOut njobs)).
Proof.
  split; intros x H; apply wait_for_jobs_failure in H; discriminate H.
Qed.

(** X16.  With no budget configured, the loop keeps asking while jobs are
    running or queued and none has failed, five seconds apart, and returns
    the listing of the first poll in which every job is successful: [k] polls
    that find work in progress, then success, need [k + 1] iterations. *)
Theorem polling_waits_until_success E build_version config start_time k spare t
    (waiting : nat -> list (string * string)) (final : list (string * string)) :
  let ep := BuildAt (owner config) (repo config) build_version in
  timeout config = "" ->
  (forall i, (i < k)%nat ->
     get_job_ids E build_version config (Scenario.polled i ep t)
     = (Ret (job_listing (waiting i)), Get ep :: Scenario.polled i ep t)
     /\ (forall id, ~ In (id, "failed") (waiting i))
     /\ (exists id, In (id, "running") (waiting i) \/ In (id, "queued") (waiting i))) ->
  get_job_ids E build_version config (Scenario.polled k ep t)
  = (Ret (job_listing final), Get ep :: Scenario.polled k ep t) ->
  final <> [] ->
  Forall (fun j => snd j = "success") final ->
  wait_for_jobs E (S k + spare) build_version config start_time t
  = (Ret (job_listing final), Get ep :: Scenario.polled k ep t).
Proof.
  intros ep Hto. revert t waiting.
  induction k as [|k IH]; intros t waiting Hwait Hlast Hne Hall.
  - simpl in Hlast |- *. apply iteration_success; auto.
    + apply listing_hashable.
    + apply set_mem_listing_false. intros id Hin.
      rewrite Forall_forall in Hall. specialize (Hall _ Hin). discriminate Hall.
    + apply set_eq_success. auto.
  - destruct (Hwait 0%nat ltac:(lia)) as [Hg [Hnf [id Hw]]]. simpl in Hg.
    change (S (S k) + spare)%nat with (S (S k + spare)).
    rewrite (iteration_waiting E build_version config start_time (S k + spare) t
               (Get ep :: t) (job_listing (waiting 0%nat)) Hg).
    + rewrite Hto. simpl nonempty. cbv iota.
      apply (IH (Sleep SLEEP_FOR :: Get ep :: t) (fun i => waiting (S i))); auto.
      intros i Hi. apply (Hwait (S i)). lia.
    + apply listing_hashable.
    + apply set_mem_listing_false. exact Hnf.
    + destruct (set_eq _ _) eqn:Heq; [|reflexivity].
      apply set_eq_success in Heq. destruct Heq as [_ Hs].
      rewrite Forall_forall in Hs.
      destruct Hw as [Hw|Hw]; specialize (Hs _ Hw); discriminate Hs.
    + apply orb_true_iff.
      destruct Hw as [Hw|Hw]; [left|right]; apply set_mem_listing; eauto.
Qed.

Lemma polling_waits_until_success_witness :
  wait_for_jobs Scenario.finishing_service (3 + 0) (JStr "1.0.1") Scenario.base_config 0 []
  = (Ret (job_listing [("a", "success")]),
     Get Scenario.build_endpoint :: Scenario.polled 2 Scenario.build_endpoint []).
Proof.
  apply (polling_waits_until_success Scenario.finishing_service (JStr "1.0.1")
           Scenario.base_config 0 2 0 []
           (fun _ => [("a", "running")]) [("a", "success")]).
  - reflexivity.
  - intros i Hi. split; [|split].
    + destruct i as [|[|i]]; [reflexivity|reflexivity|lia].
    + intros id [H|[]]. discriminate H.
    + exists "a". left. left. reflexivity.
  - reflexivity.
  - discriminate.
  - repeat constructor.
Defined.

(** ** [main] as a whole *)

Section Emits.

Context {A B : Type}.
Variable P : event -> Prop.

Lemma emits_silent (m : M A) : (forall t, snd (m t) = t) -> emits P m.
Proof. intros H t. exists []. rewrite H. split; [reflexivity|constructor]. Qed.

Lemma emits_one (m : M A) e : (forall t, snd (m t) = e :: t) -> P e -> emits P m.
Proof. intros H He t. exists [e]. rewrite H. split; [reflexivity|repeat constructor; exact He]. Qed.

Lemma emits_bind (m : M A) (k : A -> M B) :
  emits P m -> (forall a, emits P (k a)) -> emits P (bind m k).
Proof.
  intros Hm Hk t. unfold bind.
  destruct (Hm t) as [evs1 [H1 HP1]].
  destruct (m t) as [[a|f|x|] t1]; simpl in H1; subst t1;
    try solve [exists evs1; auto].
  destruct (Hk a (evs1 ++ t)) as [evs2 [H2 HP2]].
  exists (evs2 ++ evs1). rewrite H2, app_assoc. split; [reflexivity|].
  apply Forall_app. auto.
Qed.

End Emits.

(** One phase after another. *)
Lemma emits_then {A B} (P1 P2 : event -> Prop) (m : M A) (k : A -> M B) t :
  emits P1 m -> (forall a, emits P2 (k a)) ->
  exists evs1 evs2,
    snd (bind m k t) = evs2 ++ evs1 ++ t /\ Forall P1 evs1 /\ Forall P2 evs2.
Proof.
  intros Hm Hk. unfold bind.
  destruct (Hm t) as [evs1 [H1 HP1]].
  destruct (m t) as [[a|f|x|] t1]; simpl in H1; subst t1;
    try solve [exists evs1, []; simpl; auto].
  destruct (Hk a (evs1 ++ t)) as [evs2 [H2 HP2]].
  exists evs1, evs2. auto.
Qed.

Lemma emits_get_job_ids E build_version config :
  emits (polling config) (get_job_ids E build_version config).
Proof.
  unfold get_job_ids. apply emits_bind.
  { apply emits_one with (e := Get (BuildAt (owner config) (repo config) build_version)).
    - intros t. apply query_api_trace.
    - left. eauto. }
  intros json_data.
  apply emits_bind; [apply emits_silent; reflexivity|]. intros [|]; simpl;
    [|apply emits_silent; reflexivity].
  apply emits_bind; [apply emits_silent; reflexivity|]. intros build.
  apply emits_bind; [apply emits_silent; reflexivity|]. intros [|]; simpl;
    [|apply emits_silent; reflexivity].
  apply emits_bind; [apply emits_silent; reflexivity|]. intros jobs.
  apply emits_bind; [apply emits_silent; reflexivity|]. intros items.
  apply emits_silent. reflexivity.
Qed.

Lemma emits_wait_for_jobs E fuel build_version config start_time :
  emits (polling config) (wait_for_jobs E fuel build_version config start_time).
Proof.
  induction fuel as [|fuel IH]; simpl; [apply emits_silent; reflexivity|].
  apply emits_bind; [apply emits_get_job_ids|]. intros job_ids.
  apply emits_bind; [apply emits_silent; reflexivity|]. intros statuses.
  destruct (set_mem "failed" statuses).
  { apply emits_bind; [apply emits_silent; reflexivity|]. intros job.
    apply emits_silent. reflexivity. }
  destruct (set_eq statuses _); [apply emits_silent; reflexivity|].
  apply emits_bind.
  { destruct (set_mem "running" statuses); [apply emits_silent; reflexivity|].
    destruct (set_mem "queued" statuses); apply emits_silent; reflexivity. }
  intros _. apply emits_bind.
  { destruct (nonempty (timeout config)); [|apply emits_silent; reflexivity].
    apply emits_bind; [apply emits_silent; reflexivity|]. intros now.
    apply emits_bind; [apply emits_silent; reflexivity|]. intros [|];
      apply emits_silent; reflexivity. }
  intros _. apply emits_bind; [|intros _; exact IH].
  apply emits_one with (e := Sleep SLEEP_FOR); [reflexivity|right; reflexivity].
Qed.

Lemma emits_artifacts_loop E job_ids artifacts :
  emits resolving (artifacts_loop E job_ids artifacts).
Proof.
  revert artifacts. induction job_ids as [|job rest IH]; intros artifacts; simpl.
  - apply emits_silent. reflexivity.
  - apply emits_bind.
    { apply emits_one with (e := Get (Artifacts job)).
      - intros t. apply query_api_trace.
      - exists job. reflexivity. }
    intros json_data.
    apply emits_bind; [apply emits_silent; reflexivity|]. intros listing.
    apply emits_bind; [apply emits_silent; reflexivity|]. intros entries. apply IH.
Qed.

Lemma emits_wait_for_queue E attempts config build_version :
  emits (locating config) (wait_for_queue E attempts config build_version).
Proof.
  revert build_version. induction attempts as [|n IH]; intros build_version; simpl.
  - apply emits_silent. reflexivity.
  - apply emits_bind.
    { apply emits_one with (e := Get (History (owner config) (repo config))).
      - intros t. apply get_build_version_trace.
      - left. reflexivity. }
    intros bv. destruct (truthy bv); [apply emits_silent; reflexivity|].
    apply emits_bind; [|intros _; apply IH].
    apply emits_one with (e := Sleep SLEEP_FOR); [reflexivity|right; reflexivity].
Qed.

(** X17.  Every run of [main] goes through its steps in one order and never
    back: first history queries and sleeps, then queries of one build of the
    configured project and sleeps, then artifact queries.  Once polling has
    begun the history is not asked again, and once artifacts are being
    resolved no job status is. *)
Theorem main_phases E fuel config t :
  exists located polled resolved,
    snd (main E fuel config t) = resolved ++ polled ++ located ++ t
    /\ Forall (locating config) located
    /\ Forall (polling config) polled
    /\ Forall resolving resolved.
Proof.
  unfold main. destruct (validate_outcome E config t) as [Hv|[f [_ Hv]]].
  2:{ exists [], [], []. unfold bind at 1. rewrite Hv. simpl. auto. }
  rewrite (bind_eq _ _ _ _ _ Hv). unfold bind at 1.
  destruct (emits_wait_for_queue E 3 config JNull t) as [located [Hq HPq]].
  destruct (wait_for_queue E 3 config JNull t) as [[bv|f|x|] t1]; simpl in Hq; subst t1;
    try solve [exists located, [], []; simpl; auto].
  destruct (negb (truthy bv)); [exists located, [], []; simpl; auto|].
  unfold bind at 1, time_time at 1.
  destruct (emits_then (polling config) resolving
              (wait_for_jobs E fuel bv config (clock E (located ++ t)))
              (fun job_ids => artifacts <- get_artifacts_urls E (map fst job_ids) ;; ret tt)
              (located ++ t)) as [polled [resolved [Heq [HPp HPr]]]].
  - apply emits_wait_for_jobs.
  - intros job_ids. apply emits_bind; [apply emits_artifacts_loop|].
    intros artifacts. apply emits_silent. reflexivity.
  - exists located, polled, resolved. rewrite Heq. auto.
Qed.

(** X18.  When everything goes well, [main] returns after exactly one
    history query, one query of the build that was found and one artifact
    query per job, in that order, without sleeping: configuration valid,
    build found at the first look, every job successful at the first poll,
    artifact listings delivered. *)
Theorem main_succeeds E fuel config t version jobs (listing : json -> list json) :
  let history := Get (History (owner config) (repo config)) in
  let build := Get (BuildAt (owner config) (repo config) version) in
  validate E config t = (Ret tt, t) ->
  get_build_version E config t = (Ret version, history :: t) ->
  truthy version = true ->
  get_job_ids E version config (history :: t)
  = (Ret (job_listing jobs), build :: history :: t) ->
  jobs <> [] ->
  Forall (fun j => snd j = "success") jobs ->
  (forall job t', In job (map fst (job_listing jobs)) ->
     exists status_code text,
       respond E t' (Artifacts job)
       = Response true status_code text (Some (JArr (listing job)))) ->
  (forall job a, In job (map fst (job_listing jobs)) -> In a (listing job) ->
     exists name, py_getitem a "fileName" = Ret name) ->
  main E (S fuel) config t
  = (Ret tt,
     rev (map (fun job => Get (Artifacts job)) (map fst (job_listing jobs)))
     ++ build :: history :: t).
Proof.
  intros history build Hv Hb Ht Hj Hne Hall Hr Hn.
  unfold main. rewrite (bind_eq _ _ _ _ _ Hv).
  rewrite wait_for_queue_S, bind_assoc, (bind_eq _ _ _ _ _ Hb). rewrite Ht.
  rewrite bind_ret_l. rewrite Ht. change (negb true) with false. cbv iota.
  unfold bind at 1, time_time at 1. cbv beta.
  assert (Hw : wait_for_jobs E (S fuel) version config (clock E (history :: t)) (history :: t)
               = (Ret (job_listing jobs), build :: history :: t)).
  { apply iteration_success; auto.
    - apply listing_hashable.
    - apply set_mem_listing_false. intros id Hin.
      rewrite Forall_forall in Hall. specialize (Hall _ Hin). discriminate Hall.
    - apply set_eq_success. auto. }
  rewrite (bind_eq _ _ _ _ _ Hw). unfold get_artifacts_urls.
  rewrite (bind_eq _ _ _ _ _
             (artifacts_loop_in_order E _ listing [] (build :: history :: t) Hr Hn)).
  reflexivity.
Qed.

Lemma main_succeeds_witness :
  main Scenario.happy_service 1 Scenario.tagged_identity []
  = (Ret tt,
     [Get (Artifacts (JStr "b")); Get (Artifacts (JStr "a"));
      Get Scenario.build_endpoint; Get (History "me" "project")]).
Proof.
  apply (main_succeeds Scenario.happy_service 0 Scenario.tagged_identity []
           (JStr "1.0.1") [("a", "success"); ("b", "success")] Scenario.artifacts_of).
  - reflexivity.
  - reflexivity.
  - reflexivity.
  - reflexivity.
  - discriminate.
  - repeat constructor.
  - intros job t' _. exists 200, "{...}". reflexivity.
  - intros job a [<-|[<-|[]]] Hin.
    + destruct Hin as [<-|[]]. exists (JStr ".coverage"). reflexivity.
    + destruct Hin.
Defined.

(** ** [get_arguments] *)

Lemma split_without sep s : without sep s = true -> split sep s = [s].
Proof.
  unfold without. induction s as [|c s IH]; simpl; [reflexivity|].
  intros H. apply andb_true_iff in H as [Hc Hs]. apply negb_true_iff in Hc.
  rewrite Hc, (IH Hs). reflexivity.
Qed.


Lemma get_arguments_outcome args environ :
  (exists config, get_arguments args environ = Ret config)
  \/ get_arguments args environ = Crash IndexError.
Proof.
  unfold get_arguments, travis_identity.
  destruct (on_travis environ); [|left; eexists; reflexivity].
  unfold py_index.
  destruct (split "/" (environ_get environ "TRAVIS_REPO_SLUG" "/")) as [|o [|r parts]];
    simpl; [right; reflexivity|right; reflexivity|left; eexists; reflexivity].
Qed.

(** X19.  What the command line gives for the commit, the owner, the pull
    request, the repository or the tag is what the configuration holds,
    whatever the environment says. *)
Theorem command_line_overrides args environ config :
  get_arguments args environ = Ret config ->
  (forall v, arg_commit args = Some v -> v <> "" -> commit config = v)
  /\ (forall v, arg_owner_name args = Some v -> v <> "" -> owner config = v)
  /\ (forall v, arg_pull_request args = Some v -> v <> "" -> pull_request config = v)
  /\ (forall v, arg_repo_name args = Some v -> v <> "" -> repo config = v)
  /\ (forall v, arg_tag_name args = Some v -> v <> "" -> tag config = v).
Proof.
  unfold get_arguments. destruct (travis_identity environ) as [[[[[c o] p] r] g]| | |];
    simpl; try discriminate.
  intros H. inversion H; subst config; clear H. simpl.
  repeat split; intros v -> Hv; apply nonempty_true in Hv; simpl; rewrite Hv; reflexivity.
Qed.

Lemma command_line_overrides_witness :
  (forall v, arg_commit Scenario.project_arguments = Some v -> v <> "" ->
             commit Scenario.tagged_identity = v)
  /\ (forall v, arg_owner_name Scenario.project_arguments = Some v -> v <> "" ->
                owner Scenario.tagged_identity = v)
  /\ (forall v, arg_pull_request Scenario.project_arguments = Some v -> v <> "" ->
                pull_request Scenario.tagged_identity = v)
  /\ (forall v, arg_repo_name Scenario.project_arguments = Some v -> v <> "" ->
                repo Scenario.tagged_identity = v)
  /\ (forall v, arg_tag_name Scenario.project_arguments = Some v -> v <> "" ->
                tag Scenario.tagged_identity = v).
Proof.
  apply (command_line_overrides Scenario.project_arguments Scenario.travis_push
           Scenario.tagged_identity).
  reflexivity.
Defined.

(** X20.  Away from Travis (the variable TRAVIS is not 'true') the
    environment plays no part: the configuration is the one an empty
    environment gives, and [get_arguments] does not fail. *)
Theorem environment_ignored_off_travis args environ :
  on_travis environ = false ->
  get_arguments args environ = get_arguments args (fun _ => None)
  /\ exists config, get_arguments args environ = Ret config.
Proof.
  intros H. unfold get_arguments, travis_identity. rewrite H. simpl.
  split; [reflexivity|eexists; reflexivity].
Qed.

Lemma environment_ignored_off_travis_witness :
  get_arguments Scenario.no_arguments Scenario.elsewhere
  = get_arguments Scenario.no_arguments (fun _ => None)
  /\ exists config, get_arguments Scenario.no_arguments Scenario.elsewhere = Ret config.
Proof.
  apply (environment_ignored_off_travis Scenario.no_arguments Scenario.elsewhere).
  reflexivity.
Defined.



(** X22.  On Travis, a slug without a slash makes [get_arguments] raise
    [IndexError], even when the command line names owner and repository:
    the slug is taken apart before the command line is looked at. *)
Theorem travis_slug_without_slash args environ slug :
  on_travis environ = true ->
  environ "TRAVIS_REPO_SLUG" = Some slug ->
  without "/" slug = true ->
  get_arguments args environ = Crash IndexError.
Proof.
  intros Ht Hs Hw. unfold get_arguments, travis_identity, environ_get.
  rewrite Ht, Hs, (split_without "/" slug Hw). reflexivity.
Qed.

Lemma travis_slug_without_slash_witness :
  get_arguments Scenario.project_arguments Scenario.travis_bad_slug = Crash IndexError.
Proof.
  apply (travis_slug_without_slash Scenario.project_arguments Scenario.travis_bad_slug
           "something"); reflexivity.
Defined.

(** ** [entry_point] *)

(** X23.  No run of [entry_point] ends with [sys.exit(1)] or with the
    [HandledError] raised again: when [main] raises [HandledError], looking
    up the key '--raise', which the configuration does not have, raises
    [KeyError] in the handler, whether --raise was given or not. *)
Theorem entry_point_handler_fails E fuel args environ t :
  (forall status, fst (entry_point E fuel args environ t) <> SystemExit status)
  /\ (forall f, fst (entry_point E fuel args environ t) <> Reraised f)
  /\ (forall config f t',
        get_arguments args environ = Ret config ->
        main E fuel config t = (Handled f, t') ->
        entry_point E fuel args environ t = (Uncaught KeyError, t')).
Proof.
  unfold entry_point.
  destruct (get_arguments_outcome args environ) as [[config ->]| ->].
  - destruct (main E fuel config t) as [[u|f|x|] t1] eqn:Hmain; simpl;
      repeat split; try discriminate;
      intros c g t' Hc Hm; inversion Hc; subst c; rewrite Hmain in Hm;
      inversion Hm; subst; reflexivity.
  - simpl. repeat split; discriminate.
Qed.

Lemma entry_point_handler_fails_witness :
  entry_point (Scenario.constant_service Py3 Scenario.stale_history) 1
              Scenario.project_arguments Scenario.elsewhere []
  = (Uncaught KeyError,
     [Sleep 5; Get (History "me" "project");
      Sleep 5; Get (History "me" "project");
      Sleep 5; Get (History "me" "project")]).
Proof.
  apply (proj2 (proj2 (entry_point_handler_fails
                         (Scenario.constant_service Py3 Scenario.stale_history) 1
                         Scenario.project_arguments Scenario.elsewhere []))
           Scenario.tagged_identity QueueTimedOut); reflexivity.
Defined.

(** ** [setup_logging] *)

(** X24.  Once logging is set up, no record is written twice.  A record
    whose line can be produced is written to standard error exactly when its
    level is WARNING or above, and to standard output exactly when its level
    is INFO or below and reaches the level of the root logger, which is DEBUG
    with --verbose and INFO without.  A record whose line cannot be produced
    is written to neither stream: under the same conditions on its level an
    error report is printed instead.  (A record of a level strictly between
    INFO and WARNING leaves nothing behind.) *)
Theorem records_written_once (verbose : bool) (r : Logging.record) :
  let root := if verbose then Logging.DEBUG else Logging.INFO in
  (List.length (Logging.written verbose r) <= 1)%nat
  /\ (In (Logging.Line Logging.Stderr) (Logging.written verbose r)
      <-> Logging.renders r = true /\ Logging.WARNING <= Logging.levelno r)
  /\ (In (Logging.Line Logging.Stdout) (Logging.written verbose r)
      <-> Logging.renders r = true /\ root <= Logging.levelno r <= Logging.INFO)
  /\ (In Logging.ErrorReport (Logging.written verbose r)
      <-> Logging.renders r = false
          /\ (root <= Logging.levelno r <= Logging.INFO
              \/ Logging.WARNING <= Logging.levelno r)).
Proof.
  destruct r as [levelno renders].
  unfold Logging.written, Logging.setup_logging, Logging.handles, Logging.emit,
         Logging.InfoFilter_filter, Logging.WARNING, Logging.INFO, Logging.DEBUG.
  cbn [filter map forallb Logging.handler_level Logging.handler_filters Logging.writes_to
       Logging.levelno Logging.renders].
  destruct verbose, renders;
    repeat match goal with
           | |- context [(?a <=? ?b)] => destruct (Z.leb_spec a b)
           end;
    cbn; repeat split; intros;
    repeat match goal with
           | H : _ /\ _ |- _ => destruct H
           | H : _ \/ _ |- _ => destruct H
           | H : False |- _ => destruct H
           | H : _ = _ |- _ => discriminate H
           end; auto; try lia.
Qed.
